(** * typescript-mcp-server: the capabilities of [src/index.ts]

    A shallow embedding of the tools, the resource and the prompt that
    [createServer] registers, of the schemas they are registered with,
    and of the request path that leads to their handlers.

    JavaScript numbers are IEEE 754 binary64 values, so they are
    modelled by Rocq's primitive floats; strings are byte strings
    (the UTF-8 encoding of the source literals). *)

From Stdlib Require Import ZArith List String Ascii Bool Lia.
From Stdlib Require Import Floats.
Import ListNotations.
Local Open Scope string_scope.
Set Warnings "-register-all,-inexact-float".

(** ** JavaScript runtime: numbers *)

Module JSNumber.

(** [ToString] of a non-negative integer, in decimal. *)
Fixpoint digits_of_fuel (fuel : nat) (z : Z) (acc : string) : string :=
  match fuel with
  | O => acc
  | S fuel' =>
      let d := (z mod 10)%Z in
      let acc' := String (ascii_of_nat (48 + Z.to_nat d)) acc in
      if (z <? 10)%Z then acc' else digits_of_fuel fuel' (z / 10)%Z acc'
  end.

Definition digits_of_Z (z : Z) : string :=
  digits_of_fuel (S (Z.to_nat (Z.log2 z))) z "".

Fixpoint zeros (n : nat) : string :=
  match n with
  | O => ""
  | S n' => String "0" (zeros n')
  end.

(** A positive finite double is [m * 2^e].  All comparisons below are
    between exact rationals [x * 2^e2 * 10^e10], done on integers after
    clearing the negative exponents. *)
Definition pow2 (e : Z) : Z := if (0 <=? e)%Z then (2 ^ e)%Z else 1%Z.
Definition pow10 (e : Z) : Z := if (0 <=? e)%Z then (10 ^ e)%Z else 1%Z.

(** Numerator and denominator of [(x * 2^e2) / 10^q]. *)
Definition scaled_num (x e2 q : Z) : Z := (x * pow2 e2 * pow10 (- q))%Z.
Definition scaled_den (e2 q : Z) : Z := (pow2 (- e2) * pow10 q)%Z.

(** The decimal exponent [n] with [10^(n-1) <= m * 2^e < 10^n]. *)
Fixpoint dec_exponent_from (fuel : nat) (m e n : Z) : Z :=
  match fuel with
  | O => n
  | S fuel' =>
      (* m * 2^e < 10^n ? *)
      if (scaled_num m e n <? scaled_den e n)%Z then n
      else dec_exponent_from fuel' m e (n + 1)%Z
  end.

Definition dec_exponent (m e : Z) : Z := dec_exponent_from 640 m e (-330)%Z.

(** The interval of reals that round to the double [m * 2^e], in units
    of [2^(e-2)]: [(lo, hi, closed)].  The gap below the smallest
    mantissa of a binade is half the gap above it. *)
Definition rounding_interval (m e : Z) : Z * Z * bool :=
  let lo := if ((m =? 2 ^ 52) && (-1074 <? e))%Z%bool
            then (4 * m - 1)%Z else (4 * m - 2)%Z in
  (lo, (4 * m + 2)%Z, Z.even m).

(** Does the decimal [s * 10^q] round to [m * 2^e]? *)
Definition rounds_to (m e s q : Z) : bool :=
  let '(lo, hi, closed) := rounding_interval m e in
  let e2 := (e - 2)%Z in
  let v := (s * scaled_den e2 q)%Z in
  let l := scaled_num lo e2 q in
  let h := scaled_num hi e2 q in
  if closed then ((l <=? v) && (v <=? h))%Z%bool
  else ((l <? v) && (v <? h))%Z%bool.

(** The candidate with [k] digits closest to [m * 2^e], if one of the
    two neighbours at that precision rounds to it. *)
Definition candidate (m e n k : Z) : option Z :=
  let q := (n - k)%Z in
  let num := scaled_num m e q in
  let den := scaled_den e q in
  let f := (num / den)%Z in
  let c := (f + 1)%Z in
  let okf := rounds_to m e f q in
  let okc := rounds_to m e c q in
  (* distances to the two neighbours, in units of 1/den *)
  let df := (num - f * den)%Z in
  let dc := (c * den - num)%Z in
  match okf, okc with
  | true, true =>
      if (df <? dc)%Z then Some f
      else if (dc <? df)%Z then Some c
      else if Z.even f then Some f else Some c
  | true, false => Some f
  | false, true => Some c
  | false, false => None
  end.

(** The shortest digit string: the least [k] that has a candidate. *)
Fixpoint shortest_from (fuel : nat) (m e n k : Z) : Z * Z :=
  match fuel with
  | O => (scaled_num m e (n - k) / scaled_den e (n - k), k)%Z
  | S fuel' =>
      match candidate m e n k with
      | Some s => (s, k)
      | None => shortest_from fuel' m e n (k + 1)%Z
      end
  end.

Definition exponent_suffix (n : Z) : string :=
  let x := (n - 1)%Z in
  "e" ++ (if (x <? 0)%Z then "-" else "+") ++ digits_of_Z (Z.abs x).

(** [Number::toString] of the positive finite double [m * 2^e]
    (ECMA-262, radix 10). *)
Definition positive_toString (m e : Z) : string :=
  let n0 := dec_exponent m e in
  let '(s0, k0) := shortest_from 17 m e n0 1%Z in
  (* the upper neighbour may be the next power of ten *)
  let '(s, k, n) :=
    if (s0 =? 10 ^ k0)%Z then (1, 1, n0 + 1)%Z else (s0, k0, n0) in
  let ds := digits_of_Z s in
  if ((k <=? n) && (n <=? 21))%Z%bool then
    ds ++ zeros (Z.to_nat (n - k))
  else if ((0 <? n) && (n <=? 21))%Z%bool then
    substring 0 (Z.to_nat n) ds ++ "." ++
    substring (Z.to_nat n) (Z.to_nat (k - n)) ds
  else if ((-6 <? n) && (n <=? 0))%Z%bool then
    "0." ++ zeros (Z.to_nat (- n)) ++ ds
  else if (k =? 1)%Z then
    ds ++ exponent_suffix n
  else
    substring 0 1 ds ++ "." ++ substring 1 (Z.to_nat (k - 1)) ds ++
    exponent_suffix n.

(** [String(x)] and [`${x}`] for a number [x]. *)
Definition toString (x : float) : string :=
  match Prim2SF x with
  | S754_nan => "NaN"
  | S754_zero _ => "0"
  | S754_infinity false => "Infinity"
  | S754_infinity true => "-Infinity"
  | S754_finite sgn m e =>
      (if sgn then "-" else "") ++ positive_toString (Zpos m) e
  end.

End JSNumber.

(** ** JavaScript runtime: strings *)

Module JSString.

(** The double quote, for the literals that contain one. *)
Definition dquote : string := String (ascii_of_nat 34) "".
Definition backslash : string := String (ascii_of_nat 92) "".

(** [s.split(sep)] for a one-character separator. *)
Fixpoint split_on (sep : ascii) (s : string) : list string :=
  match s with
  | EmptyString => [""]
  | String c rest =>
      if Ascii.eqb c sep then "" :: split_on sep rest
      else match split_on sep rest with
           | [] => [String c ""]
           | w :: ws => String c w :: ws
           end
  end.

(** The white space and line terminators that [trim] removes, as UTF-8
    byte sequences (TAB LF VT FF CR SP, U+00A0, U+1680, U+2000..U+200A,
    U+2028, U+2029, U+202F, U+205F, U+3000, U+FEFF). *)
Definition bytes (l : list nat) : list ascii := map ascii_of_nat l.

Definition white_space : list (list ascii) :=
  map bytes
    ([[9]; [10]; [11]; [12]; [13]; [32]; [194; 160]; [225; 154; 128]] ++
     map (fun b => [226; 128; b]) [128; 129; 130; 131; 132; 133; 134; 135; 136; 137; 138] ++
     [[226; 128; 168]; [226; 128; 169]; [226; 128; 175]; [226; 129; 159];
      [227; 128; 128]; [239; 187; 191]]).

Fixpoint strip_prefix (p l : list ascii) : option (list ascii) :=
  match p, l with
  | [], _ => Some l
  | _ :: _, [] => None
  | a :: p', b :: l' => if Ascii.eqb a b then strip_prefix p' l' else None
  end.

Fixpoint strip_one (ws : list (list ascii)) (l : list ascii) : option (list ascii) :=
  match ws with
  | [] => None
  | w :: ws' =>
      match strip_prefix w l with
      | Some l' => Some l'
      | None => strip_one ws' l
      end
  end.

Fixpoint strip_leading (fuel : nat) (ws : list (list ascii)) (l : list ascii) : list ascii :=
  match fuel with
  | O => l
  | S fuel' =>
      match strip_one ws l with
      | Some l' => strip_leading fuel' ws l'
      | None => l
      end
  end.

Definition trimStart_bytes (l : list ascii) : list ascii :=
  strip_leading (List.length l) white_space l.

Definition trimEnd_bytes (l : list ascii) : list ascii :=
  rev (strip_leading (List.length l) (map (@rev ascii) white_space) (rev l)).

(** [s.trim()]. *)
Definition trim (s : string) : string :=
  string_of_list_ascii (trimEnd_bytes (trimStart_bytes (list_ascii_of_string s))).

Definition lower_ascii (c : ascii) : ascii :=
  let n := nat_of_ascii c in
  if ((65 <=? n) && (n <=? 90))%nat then ascii_of_nat (n + 32) else c.

(** [s.toLowerCase()]: the ASCII letters; bytes of other characters are
    kept, which decides the same comparisons with an ASCII literal. *)
Fixpoint toLowerCase (s : string) : string :=
  match s with
  | EmptyString => EmptyString
  | String c rest => String (lower_ascii c) (toLowerCase rest)
  end.

Fixpoint repeat_char (c : ascii) (n : nat) : string :=
  match n with
  | O => ""
  | S n' => String c (repeat_char c n')
  end.

(** [s.padStart(n, c)] for a one-character filler. *)
Definition padStart (n : nat) (c : ascii) (s : string) : string :=
  repeat_char c (n - String.length s) ++ s.

(** [arr.includes(x)] on an array of strings. *)
Definition includes (arr : list string) (x : string) : bool :=
  existsb (String.eqb x) arr.

(** [arr.join(sep)] on an array of strings. *)
Fixpoint join (sep : string) (arr : list string) : string :=
  match arr with
  | [] => ""
  | [x] => x
  | x :: rest => x ++ sep ++ join sep rest
  end.

End JSString.

(** ** JavaScript runtime: values and [JSON.stringify] *)

Module JS.

Import JSString.

(** The values that arrive as JSON from the transport or from an
    upstream service, and the object literals the handlers build from
    them.  An object keeps its properties in insertion order. *)
Inductive value : Type :=
| Undefined
| Null
| Bool (b : bool)
| Num (x : float)
| Str (s : string)
| Arr (items : list value)
| Obj (props : list (string * value)).

(** An object as a map from property names to values. *)
Definition object := list (string * value).

Fixpoint lookup (key : string) (o : object) : option value :=
  match o with
  | [] => None
  | (k, v) :: rest => if String.eqb key k then Some v else lookup key rest
  end.

(** [o[key]] on an object literal: [undefined] when the key is absent. *)
Definition prop (key : string) (o : object) : value :=
  match lookup key o with
  | Some v => v
  | None => Undefined
  end.

(** [ToBoolean]. *)
Definition truthy (v : value) : bool :=
  match v with
  | Undefined | Null => false
  | Bool b => b
  | Num x => negb (PrimFloat.eqb x 0 || PrimFloat.is_nan x)
  | Str s => negb (String.eqb s "")
  | Arr _ | Obj _ => true
  end.

(** [a || b]. *)
Definition or_else (a b : value) : value := if truthy a then a else b.

(** [ToString], as a template literal applies it. *)
Fixpoint toString (v : value) : string :=
  match v with
  | Undefined => "undefined"
  | Null => "null"
  | Bool true => "true"
  | Bool false => "false"
  | Num x => JSNumber.toString x
  | Str s => s
  | Arr items =>
      (* Array.prototype.join: null and undefined elements are empty *)
      (fix go (l : list value) : string :=
         match l with
         | [] => ""
         | x :: rest =>
             let sx := match x with
                       | Undefined | Null => ""
                       | _ => toString x
                       end in
             match rest with
             | [] => sx
             | _ :: _ => sx ++ "," ++ go rest
             end
         end) items
  | Obj _ => "[object Object]"
  end.

Definition hex_digit (n : nat) : ascii :=
  if (n <? 10)%nat then ascii_of_nat (48 + n) else ascii_of_nat (87 + n).

(** One character of [QuoteJSONString]. *)
Definition quote_char (c : ascii) : string :=
  let n := nat_of_ascii c in
  if (n =? 8)%nat then backslash ++ "b"
  else if (n =? 9)%nat then backslash ++ "t"
  else if (n =? 10)%nat then backslash ++ "n"
  else if (n =? 12)%nat then backslash ++ "f"
  else if (n =? 13)%nat then backslash ++ "r"
  else if (n =? 34)%nat then backslash ++ dquote
  else if (n =? 92)%nat then backslash ++ backslash
  else if (n <? 32)%nat then
    backslash ++ "u00" ++
    String (hex_digit (n / 16)) (String (hex_digit (n mod 16)) "")
  else String c "".

Fixpoint quote_body (s : string) : string :=
  match s with
  | EmptyString => ""
  | String c rest => quote_char c ++ quote_body rest
  end.

(** [QuoteJSONString]. *)
Definition quote (s : string) : string := dquote ++ quote_body s ++ dquote.

(** [SerializeJSONProperty] with a gap of two spaces; [indent] is the
    current indentation.  [undefined] is rendered as an array element
    ([null]); as a property it is left out by the object case. *)
Fixpoint serialize (indent : string) (v : value) : string :=
  match v with
  | Undefined => "null"
  | Null => "null"
  | Bool true => "true"
  | Bool false => "false"
  | Num x => if PrimFloat.is_finite x then JSNumber.toString x else "null"
  | Str s => quote s
  | Arr items =>
      let inner := indent ++ "  " in
      match items with
      | [] => "[]"
      | _ :: _ =>
          "[" ++ String (ascii_of_nat 10) inner ++
          (fix go (l : list value) : string :=
             match l with
             | [] => ""
             | [x] => serialize inner x
             | x :: rest =>
                 serialize inner x ++ "," ++ String (ascii_of_nat 10) inner ++ go rest
             end) items ++
          String (ascii_of_nat 10) indent ++ "]"
      end
  | Obj props =>
      let inner := indent ++ "  " in
      let partial :=
        (fix go (l : list (string * value)) : list string :=
           match l with
           | [] => []
           | (k, Undefined) :: rest => go rest
           | (k, x) :: rest => (quote k ++ ": " ++ serialize inner x) :: go rest
           end) props in
      match partial with
      | [] => "{}"
      | _ :: _ =>
          "{" ++ String (ascii_of_nat 10) inner ++
          join ("," ++ String (ascii_of_nat 10) inner) partial ++
          String (ascii_of_nat 10) indent ++ "}"
      end
  end.

(** [JSON.stringify(v, null, 2)], for the objects and arrays it is
    applied to. *)
Definition JSON_stringify (v : value) : string := serialize "" v.

End JS.

(** ** Schema descriptors and the validator *)

Module Zod.

Import JS.

(** The primitive kind of a parameter, with the constraints the schema
    builder attaches to it: inclusive numeric bounds, the closed literal
    set of an enumeration. *)
Inductive FieldKind : Type :=
| KString
| KNumber (min max : option float)
| KBoolean
| KEnum (allowed : list string).

Record FieldSpec : Type := {
  kind : FieldKind;
  required : bool;
  default : option value;
  description : option string
}.

(** A capability's parameters, in declaration order. *)
Definition Descriptor := list (string * FieldSpec).

(** The builder calls of the source: [z.string()], [z.number()],
    [z.enum([...])], [.min(m)], [.max(m)], [.optional()],
    [.default(d)], [.describe(s)]. *)
Definition z_string : FieldSpec :=
  {| kind := KString; required := true; default := None; description := None |}.

Definition z_number : FieldSpec :=
  {| kind := KNumber None None; required := true; default := None;
     description := None |}.

Definition z_enum (allowed : list string) : FieldSpec :=
  {| kind := KEnum allowed; required := true; default := None;
     description := None |}.

Definition with_kind (k : FieldKind) (f : FieldSpec) : FieldSpec :=
  {| kind := k; required := required f; default := default f;
     description := description f |}.

Definition min (m : float) (f : FieldSpec) : FieldSpec :=
  match kind f with
  | KNumber _ hi => with_kind (KNumber (Some m) hi) f
  | _ => f
  end.

Definition max (m : float) (f : FieldSpec) : FieldSpec :=
  match kind f with
  | KNumber lo _ => with_kind (KNumber lo (Some m)) f
  | _ => f
  end.

Definition optional (f : FieldSpec) : FieldSpec :=
  {| kind := kind f; required := false; default := default f;
     description := description f |}.

Definition default_to (d : value) (f : FieldSpec) : FieldSpec :=
  {| kind := kind f; required := false; default := Some d;
     description := description f |}.

Definition describe (s : string) (f : FieldSpec) : FieldSpec :=
  {| kind := kind f; required := required f; default := default f;
     description := Some s |}.

(** Method chaining: [z_number |> min 1 |> max 40]. *)
Notation "x |> f" := (f x) (at level 45, left associativity, only parsing).

Inductive ValidationError : Type :=
| MissingRequiredField (name : string)
| TypeMismatch (name : string) (expected : FieldKind)
| OutOfRange (name : string) (min max : option float) (actual : float)
| InvalidEnumValue (name : string) (allowed : list string) (actual : string).

Definition below (lo : option float) (x : float) : bool :=
  match lo with
  | Some m => PrimFloat.ltb x m
  | None => false
  end.

Definition above (hi : option float) (x : float) : bool :=
  match hi with
  | Some m => PrimFloat.ltb m x
  | None => false
  end.

(** Modelled from the spec: the validator is the schema library's, not
    the repository's; this is steps 2 to 4 of the spec's algorithm for a
    field that is present: type, then bounds, then enumeration.  As in
    the library, [NaN] is not a number. *)
Definition check_field (name : string) (f : FieldSpec) (v : value)
  : ValidationError + value :=
  match kind f, v with
  | KString, Str _ => inr v
  | KBoolean, Bool _ => inr v
  | KNumber lo hi, Num x =>
      if PrimFloat.is_nan x then inl (TypeMismatch name (kind f))
      else if below lo x || above hi x then inl (OutOfRange name lo hi x)
      else inr v
  | KEnum allowed, Str s =>
      if JSString.includes allowed s then inr v
      else inl (InvalidEnumValue name allowed s)
  | k, _ => inl (TypeMismatch name k)
  end.

(** Modelled from the spec: the validator is the schema library's, not
    the repository's; fields are visited in declaration order, the first
    failure ends the pass; an absent optional field takes its default or
    is left out; keys that the descriptor does not declare are dropped. *)
Fixpoint validate (d : Descriptor) (raw : object) : ValidationError + object :=
  match d with
  | [] => inr []
  | (name, f) :: rest =>
      match prop name raw with
      | Undefined =>
          if required f then inl (MissingRequiredField name)
          else match validate rest raw with
               | inl e => inl e
               | inr args =>
                   match default f with
                   | Some dv => inr ((name, dv) :: args)
                   | None => inr args
                   end
               end
      | v =>
          match check_field name f v with
          | inl e => inl e
          | inr v' =>
              match validate rest raw with
              | inl e => inl e
              | inr args => inr ((name, v') :: args)
              end
          end
      end
  end.

End Zod.

(** ** Protocol shapes *)

Module MCP.

Inductive Kind : Type := Tool | Resource | Prompt.

Definition Kind_eqb (a b : Kind) : bool :=
  match a, b with
  | Tool, Tool | Resource, Resource | Prompt, Prompt => true
  | _, _ => false
  end.

Definition Kind_name (k : Kind) : string :=
  match k with
  | Tool => "tool"
  | Resource => "resource"
  | Prompt => "prompt"
  end.

(** [{type: 'text', text}] and [{type: 'image', data, mimeType}]. *)
Inductive ContentBlock : Type :=
| TextContent (text : string)
| ImageContent (data : string) (mimeType : string).

Definition block_type (b : ContentBlock) : string :=
  match b with
  | TextContent _ => "text"
  | ImageContent _ _ => "image"
  end.

Record Annotations : Type := {
  audience : list string;
  priority : float
}.

(** One entry of a resource's [contents]. *)
Record ResourceContents : Type := {
  uri : string;
  mimeType : string;
  text : string
}.

(** One entry of a prompt's [messages]. *)
Record PromptMessage : Type := {
  role : string;
  content : ContentBlock
}.

(** What a callback returns: [{content, annotations?}] for a tool,
    [{contents}] for a resource, [{messages}] for a prompt. *)
Inductive Result : Type :=
| CallToolResult (content : list ContentBlock) (annotations : option Annotations)
| ReadResourceResult (contents : list ResourceContents)
| GetPromptResult (messages : list PromptMessage).

(** The number of entries a result carries. *)
Definition entries (r : Result) : nat :=
  match r with
  | CallToolResult c _ => List.length c
  | ReadResourceResult c => List.length c
  | GetPromptResult m => List.length m
  end.

End MCP.

(** ** The world outside a handler, and what a handler does to it *)

Module Effects.

(** A thrown value: an [Error] with its message, or anything else. *)
Inductive Thrown : Type :=
| Error (message : string)
| NotAnError.

(** [error instanceof Error ? error.message : fallback]. *)
Definition message_or (fallback : string) (t : Thrown) : string :=
  match t with
  | Error m => m
  | NotAnError => fallback
  end.

(** A [URL] with its search parameters, and a [fetch] request on it. *)
Record Request : Type := {
  url : string;
  searchParams : list (string * string);
  headers : list (string * string)
}.

(** [url.searchParams.set(k, v)]. *)
Fixpoint searchParams_set (k v : string) (ps : list (string * string))
  : list (string * string) :=
  match ps with
  | [] => [(k, v)]
  | (k', v') :: rest =>
      if String.eqb k k' then (k, v) :: filter (fun p => negb (String.eqb k (fst p))) rest
      else (k', v') :: searchParams_set k v rest
  end.

(** What the handlers read of a [fetch] response; [json] is the outcome
    of [response.json()]. *)
Record Response : Type := {
  ok : bool;
  status : float;
  statusText : string;
  json : Thrown + JS.value
}.

(** The arguments of [client.textToImage]. *)
Record TextToImageArgs : Type := {
  provider : string;
  model : string;
  inputs : string;
  num_inference_steps : float
}.

(** Everything a handler reads from outside its arguments: the clock,
    the process, the date and number routines of the runtime that are
    not modelled here, and the upstream services.  An upstream call is
    answered by the world; its answer may be a rejection. *)
Record World : Type := {
  Date_now : float;
  Date_toISOString : float -> string;
  Date_toLocaleString_enUS : string -> float -> Thrown + string;
  Date_parse : string -> float;
  Intl_DateTimeFormat_koKR : string -> Thrown + (float -> string);
  parseFloat : JS.value -> float;
  type_error : string -> Thrown;
  process_uptime : float;
  process_version : string;
  process_platform : string;
  process_arch : string;
  fetch : Request -> Thrown + Response;
  textToImage : string -> TextToImageArgs -> Thrown + list ascii
}.

(** What a dispatch leaves behind. *)
Inductive Event : Type :=
| Invoked (k : MCP.Kind) (name : string)
| Fetched (req : Request)
| ImageRequested (token : string) (args : TextToImageArgs).

(** An asynchronous computation run to completion: the events it
    caused, and its value or the value it threw. *)
Definition Async (A : Type) : Type := list Event * (Thrown + A).

Definition ret {A} (a : A) : Async A := ([], inr a).
Definition throw {A} (t : Thrown) : Async A := ([], inl t).

Definition bind {A B} (m : Async A) (k : A -> Async B) : Async B :=
  match m with
  | (tr, inl t) => (tr, inl t)
  | (tr, inr a) => let '(tr', r) := k a in ((tr ++ tr')%list, r)
  end.

(** [try { body } catch (error) { handler }]. *)
Definition try_catch {A} (body : Async A) (handler : Thrown -> Async A) : Async A :=
  match body with
  | (tr, inl t) => let '(tr', r) := handler t in ((tr ++ tr')%list, r)
  | (tr, inr a) => (tr, inr a)
  end.

(** A synchronous step that may throw. *)
Definition lift {A} (r : Thrown + A) : Async A := ([], r).

Definition await_fetch (w : World) (req : Request) : Async Response :=
  ([Fetched req], fetch w req).

Definition await_textToImage (w : World) (token : string) (args : TextToImageArgs)
  : Async (list ascii) :=
  ([ImageRequested token args], textToImage w token args).

Notation "x <- m ;; k" := (bind m (fun x => k))
  (at level 61, m at next level, right associativity).

End Effects.

(** ** JavaScript runtime: [Math], [Buffer], member access *)

Module JSMath.

(** [Math.floor]. *)
Definition floor (x : float) : float :=
  match Prim2SF x with
  | S754_finite sgn m e =>
      if (0 <=? e)%Z then x
      else
        let d := (2 ^ (- e))%Z in
        let q := (Zpos m / d)%Z in
        let exact := (Zpos m mod d =? 0)%Z in
        let up := PrimFloat.of_uint63 (Uint63.of_Z (if sgn && negb exact then q + 1 else q)%Z) in
        if sgn then PrimFloat.opp up else up
  | _ => x
  end.

(** [Math.abs]. *)
Definition abs (x : float) : float := PrimFloat.abs x.

End JSMath.

Module Buffer.

Definition alphabet : string :=
  "ABCDEFGHIJKLMNOPQRSTUVWXYZabcdefghijklmnopqrstuvwxyz0123456789+/".

Definition sextet (n : nat) : string :=
  match String.get n alphabet with
  | Some c => String c ""
  | None => ""
  end.

(** [Buffer.from(bytes).toString('base64')]. *)
Fixpoint toString_base64 (l : list ascii) : string :=
  match l with
  | [] => ""
  | [a] =>
      let n := nat_of_ascii a in
      sextet (n / 4) ++ sextet ((n mod 4) * 16) ++ "=="
  | [a; b] =>
      let n := nat_of_ascii a in
      let m := nat_of_ascii b in
      sextet (n / 4) ++ sextet ((n mod 4) * 16 + m / 16) ++
      sextet ((m mod 16) * 4) ++ "="
  | a :: b :: c :: rest =>
      let n := nat_of_ascii a in
      let m := nat_of_ascii b in
      let p := nat_of_ascii c in
      sextet (n / 4) ++ sextet ((n mod 4) * 16 + m / 16) ++
      sextet ((m mod 16) * 4 + p / 64) ++ sextet (p mod 64) ++
      toString_base64 rest
  end.

End Buffer.

Module Member.

Import JS Effects.

(** The length of a string in UTF-16 code units, from its UTF-8 bytes:
    one per character, two for a character of four bytes. *)
Fixpoint utf16_length (s : string) : nat :=
  match s with
  | EmptyString => 0
  | String c rest =>
      let n := nat_of_ascii c in
      (if ((128 <=? n) && (n <? 192))%nat then 0
       else if (240 <=? n)%nat then 2 else 1) + utf16_length rest
  end.

(** [v.key], for the keys the handlers read (none of them is a built-in
    property other than [length]): reading a property of [null] or
    [undefined] throws a [TypeError]. *)
Definition get (w : World) (v : value) (key : string) : Thrown + value :=
  match v with
  | Undefined | Null => inl (type_error w key)
  | Obj o => inr (prop key o)
  | Arr items =>
      if String.eqb key "length"
      then inr (Num (PrimFloat.of_uint63 (Uint63.of_Z (Z.of_nat (List.length items)))))
      else inr Undefined
  | Str s =>
      if String.eqb key "length"
      then inr (Num (PrimFloat.of_uint63 (Uint63.of_Z (Z.of_nat (utf16_length s)))))
      else inr Undefined
  | Bool _ | Num _ => inr Undefined
  end.

(** [v?.key]. *)
Definition get_opt (w : World) (v : value) (key : string) : value :=
  match v with
  | Undefined | Null => Undefined
  | _ => match get w v key with
         | inr x => x
         | inl _ => Undefined
         end
  end.

(** [v === 0]. *)
Definition is_zero (v : value) : bool :=
  match v with
  | Num x => PrimFloat.eqb x 0
  | _ => false
  end.

End Member.

(** ** The server: [createServer] *)

Module Server.

Import JS JSString Zod MCP Effects.

(** [configSchema]: the optional Hugging Face token. *)
Record Config : Type := { hfToken : option string }.

(** A registered callback: the world it runs in, its validated
    arguments, and its outcome. *)
Definition Handler := World -> object -> Async Result.

(** *** [greeting] *)

Definition greeting_schema : Descriptor :=
  [ ("name", z_string |> describe "인사할 사람의 이름");
    ("language", z_enum ["ko"; "en"] |> optional |> default_to (Str "ko")
                 |> describe "인사 언어 (기본값: ko)") ].

Definition greeting (name language : string) : Async Result :=
  let greeting :=
    if String.eqb language "ko"
    then "안녕하세요, " ++ name ++ "님! 😊"
    else "Hello, " ++ name ++ "! 👋" in
  ret (CallToolResult [TextContent greeting] None).

Definition greeting_handler : Handler := fun w args =>
  match prop "name" args, prop "language" args with
  | Str name, Str language => greeting name language
  | _, _ => throw (type_error w "greeting")
  end.

(** *** [calculator] *)

Definition calculator_operators : list string := ["+"; "-"; "*"; "/"].

Definition calculator_schema : Descriptor :=
  [ ("a", z_number |> describe "첫 번째 숫자");
    ("b", z_number |> describe "두 번째 숫자");
    ("operator", z_enum calculator_operators |> describe "연산자 (+, -, *, /)") ].

(** The arm of [switch (operator)] that is taken. *)
Inductive Case : Type :=
| case_plus | case_minus | case_times | case_divide | case_default.

Definition switch_operator (operator : string) : Case :=
  if String.eqb operator "+" then case_plus
  else if String.eqb operator "-" then case_minus
  else if String.eqb operator "*" then case_times
  else if String.eqb operator "/" then case_divide
  else case_default.

Definition division_by_zero : string := "0으로 나눌 수 없습니다".
Definition unsupported_operator : string := "지원하지 않는 연산자입니다".

(** The [switch] statement: [result], or the error thrown. *)
Definition calculate (a b : float) (operator : string) : Thrown + float :=
  match switch_operator operator with
  | case_plus => inr (a + b)%float
  | case_minus => inr (a - b)%float
  | case_times => inr (a * b)%float
  | case_divide =>
      if PrimFloat.eqb b 0 then inl (Error division_by_zero)
      else inr (a / b)%float
  | case_default => inl (Error unsupported_operator)
  end.

(** The text of the answer: [`${a} ${operator} ${b} = ${result}`]. *)
Definition calculator_text (a b : float) (operator : string) (result : float) : string :=
  JSNumber.toString a ++ " " ++ operator ++ " " ++ JSNumber.toString b ++
  " = " ++ JSNumber.toString result.

Definition calculator (a b : float) (operator : string) : Async Result :=
  result <- lift (calculate a b operator) ;;
  ret (CallToolResult [TextContent (calculator_text a b operator result)] None).

Definition calculator_handler : Handler := fun w args =>
  match prop "a" args, prop "b" args, prop "operator" args with
  | Num a, Num b, Str operator => calculator a b operator
  | _, _, _ => throw (type_error w "calculator")
  end.

(** *** [get_time] *)

Definition get_time_schema : Descriptor :=
  [ ("timeZone", z_string |> describe
       "IANA 타임존 이름 (예: America/New_York, Europe/London, Asia/Seoul)") ].

(** [arr[i]] on an array of strings. *)
Definition index (arr : list string) (i : nat) : value :=
  match nth_error arr i with
  | Some s => Str s
  | None => Undefined
  end.

Definition get_time (w : World) (timeZone : string) : Async Result :=
  try_catch
    (let now := Date_now w in
     format <- lift (Intl_DateTimeFormat_koKR w timeZone) ;;
     let formattedTime := format now in
     let utcTime := Date_toISOString w now in
     utcString <- lift (Date_toLocaleString_enUS w "UTC" now) ;;
     let utcDate := Date_parse w utcString in
     tzString <- lift (Date_toLocaleString_enUS w timeZone now) ;;
     let tzDate := Date_parse w tzString in
     let offset := ((tzDate - utcDate) / (1000 * 60 * 60))%float in
     let offsetHours := JSMath.floor (JSMath.abs offset) in
     let offsetMinutes :=
       JSMath.floor ((JSMath.abs offset - offsetHours) * 60)%float in
     let offsetSign := if PrimFloat.leb 0 offset then "+" else "-" in
     let offsetString :=
       "UTC" ++ offsetSign ++
       padStart 2 "0" (JSNumber.toString offsetHours) ++ ":" ++
       padStart 2 "0" (JSNumber.toString offsetMinutes) in
     let timeInfo :=
       Obj [ ("timezone", Str timeZone);
             ("localTime", Str formattedTime);
             ("utcTime", Str utcTime);
             ("offset", Str offsetString);
             ("timestamp", Num now);
             ("date", index (split_on " " formattedTime) 0);
             ("time", index (split_on " " formattedTime) 1) ] in
     ret (CallToolResult [TextContent (JSON_stringify timeInfo)] None))
    (fun error =>
       throw (Error ("유효하지 않은 타임존입니다: " ++ timeZone ++
                     ". IANA 타임존 형식(예: America/New_York)을 사용해주세요."))).

Definition get_time_handler : Handler := fun w args =>
  match prop "timeZone" args with
  | Str timeZone => get_time w timeZone
  | _ => throw (type_error w "get_time")
  end.

(** *** [generate_image] *)

Definition generate_image_schema : Descriptor :=
  [ ("prompt", z_string |> describe "이미지 생성을 위한 프롬프트") ].

Definition generate_image (config : Config) (w : World) (prompt : string)
  : Async Result :=
  try_catch
    (token <- match hfToken config with
              | Some t =>
                  if String.eqb t "" then
                    throw (Error "hfToken 설정이 필요합니다. Smithery 설정에서 Hugging Face API 토큰을 입력해주세요.")
                  else ret t
              | None =>
                  throw (Error "hfToken 설정이 필요합니다. Smithery 설정에서 Hugging Face API 토큰을 입력해주세요.")
              end ;;
     imageBlob <- await_textToImage w token
                    {| provider := "auto";
                       model := "black-forest-labs/FLUX.1-schnell";
                       inputs := prompt;
                       num_inference_steps := 5 |} ;;
     let base64Data := Buffer.toString_base64 imageBlob in
     ret (CallToolResult
            [ImageContent base64Data "image/png"]
            (Some {| audience := ["user"]; priority := 0.9 |})))
    (fun error =>
       throw (Error ("이미지 생성 중 오류가 발생했습니다: " ++
                     message_or "알 수 없는 오류" error))).

Definition generate_image_handler (config : Config) : Handler := fun w args =>
  match prop "prompt" args with
  | Str prompt => generate_image config w prompt
  | _ => throw (type_error w "generate_image")
  end.

(** *** [geocode] *)

Definition geocode_schema : Descriptor :=
  [ ("query", z_string |> describe
       ("검색할 도시 이름 또는 주소 (예: " ++ dquote ++ "Seoul" ++ dquote ++ ", " ++
        dquote ++ "New York" ++ dquote ++ ", " ++ dquote ++ "서울시 강남구" ++
        dquote ++ ")"));
    ("limit", z_number |> min 1 |> max 40 |> optional |> default_to (Num 1)
              |> describe "반환할 결과 수 (기본값: 1, 최대: 40)") ].

Definition getM (w : World) (v : value) (key : string) : Async value :=
  lift (Member.get w v key).

Fixpoint mapM {A B} (f : A -> Async B) (l : list A) : Async (list B) :=
  match l with
  | [] => ret []
  | x :: rest =>
      y <- f x ;;
      ys <- mapM f rest ;;
      ret (y :: ys)
  end.

(** The request the handler sends to Nominatim. *)
Definition geocode_request (query : string) (limit : float) : Request :=
  {| url := "https://nominatim.openstreetmap.org/search";
     searchParams :=
       searchParams_set "addressdetails" "1"
         (searchParams_set "limit" (JSNumber.toString limit)
            (searchParams_set "format" "jsonv2"
               (searchParams_set "q" query [])));
     headers := [ ("User-Agent", "typescript-mcp-server/1.0.0");
                  ("Accept-Language", "ko,en") ] |}.

(** The text of the answer when the search has no match. *)
Definition geocode_no_results (query : string) : string :=
  dquote ++ query ++ dquote ++ "에 대한 검색 결과가 없습니다.".

(** The callback of [results.map]. *)
Definition geocode_format (w : World) (r : value) : Async value :=
  display_name <- getM w r "display_name" ;;
  lat <- getM w r "lat" ;;
  lon <- getM w r "lon" ;;
  lat' <- getM w r "lat" ;;
  lon' <- getM w r "lon" ;;
  place_id <- getM w r "place_id" ;;
  osm_type <- getM w r "osm_type" ;;
  osm_id <- getM w r "osm_id" ;;
  type <- getM w r "type" ;;
  category <- getM w r "category" ;;
  importance <- getM w r "importance" ;;
  address <- getM w r "address" ;;
  boundingbox <- getM w r "boundingbox" ;;
  ret (Obj [ ("display_name", display_name);
             ("latitude", Num (parseFloat w lat));
             ("longitude", Num (parseFloat w lon));
             ("coordinates", Obj [ ("lat", Num (parseFloat w lat'));
                                   ("lon", Num (parseFloat w lon')) ]);
             ("place_id", place_id);
             ("osm_type", osm_type);
             ("osm_id", osm_id);
             ("type", type);
             ("category", category);
             ("importance", importance);
             ("address", or_else address Null);
             ("boundingbox", or_else boundingbox Null) ]).

Definition geocode (w : World) (query : string) (limit : float) : Async Result :=
  try_catch
    (response <- await_fetch w (geocode_request query limit) ;;
     if negb (ok response) then
       throw (Error ("Nominatim API 오류: " ++ JSNumber.toString (status response)
                     ++ " " ++ statusText response))
     else
       results <- lift (json response) ;;
       let no_results :=
         ret (CallToolResult [TextContent (geocode_no_results query)] None) in
       if negb (truthy results) then no_results
       else
         len <- getM w results "length" ;;
         if Member.is_zero len then no_results
         else
           match results with
           | Arr items =>
               formatted <- mapM (geocode_format w) items ;;
               ret (CallToolResult
                      [TextContent (JSON_stringify (Arr formatted))] None)
           | _ => throw (type_error w "map")
           end)
    (fun error =>
       throw (Error ("지오코딩 중 오류가 발생했습니다: " ++
                     message_or "알 수 없는 오류" error))).

Definition geocode_handler : Handler := fun w args =>
  match prop "query" args, prop "limit" args with
  | Str query, Num limit => geocode w query limit
  | _, _ => throw (type_error w "geocode")
  end.

(** *** [get_weather] *)

Definition get_weather_schema : Descriptor :=
  [ ("latitude", z_number |> min (-90) |> max 90 |> describe "위도 (WGS84)");
    ("longitude", z_number |> min (-180) |> max 180 |> describe "경도 (WGS84)");
    ("timezone", z_string |> optional |> default_to (Str "auto")
                 |> describe "시간대 (기본값: auto - 자동 감지)");
    ("forecast_days", z_number |> min 1 |> max 16 |> optional
                      |> default_to (Num 3)
                      |> describe "예보 일수 (기본값: 3, 최대: 16)") ].

(** The request the handler sends to Open-Meteo. *)
Definition get_weather_request (latitude longitude : float) (timezone : string)
    (forecast_days : float) : Request :=
  {| url := "https://api.open-meteo.com/v1/forecast";
     searchParams :=
       searchParams_set "daily"
         "temperature_2m_max,temperature_2m_min,precipitation_sum,weather_code"
         (searchParams_set "current"
            "temperature_2m,relative_humidity_2m,weather_code,wind_speed_10m"
            (searchParams_set "forecast_days" (JSNumber.toString forecast_days)
               (searchParams_set "timezone" timezone
                  (searchParams_set "longitude" (JSNumber.toString longitude)
                     (searchParams_set "latitude" (JSNumber.toString latitude) [])))));
     headers := [ ("User-Agent", "typescript-mcp-server/1.0.0") ] |}.

Definition get_weather (w : World) (latitude longitude : float)
    (timezone : string) (forecast_days : float) : Async Result :=
  response <- await_fetch w
                (get_weather_request latitude longitude timezone forecast_days) ;;
  if negb (ok response) then
    throw (Error ("Open-Meteo API 오류: " ++ JSNumber.toString (status response)))
  else
    data <- lift (json response) ;;
    error <- getM w data "error" ;;
    if truthy error then
      reason <- getM w data "reason" ;;
      throw (Error ("Open-Meteo API 오류: " ++
                    toString (or_else reason (Str "알 수 없는 오류"))))
    else
      lat <- getM w data "latitude" ;;
      lon <- getM w data "longitude" ;;
      tz <- getM w data "timezone" ;;
      elevation <- getM w data "elevation" ;;
      current <- getM w data "current" ;;
      current' <-
        (if truthy current then
           temperature <- getM w current "temperature_2m" ;;
           humidity <- getM w current "relative_humidity_2m" ;;
           weather_code <- getM w current "weather_code" ;;
           wind_speed <- getM w current "wind_speed_10m" ;;
           time <- getM w current "time" ;;
           ret (Obj [ ("temperature", temperature);
                      ("humidity", humidity);
                      ("weather_code", weather_code);
                      ("wind_speed", wind_speed);
                      ("time", time) ])
         else ret Null) ;;
      daily <- getM w data "daily" ;;
      daily' <-
        (if truthy daily then
           time <- getM w daily "time" ;;
           temperature_max <- getM w daily "temperature_2m_max" ;;
           temperature_min <- getM w daily "temperature_2m_min" ;;
           precipitation <- getM w daily "precipitation_sum" ;;
           weather_code <- getM w daily "weather_code" ;;
           ret (Obj [ ("time", time);
                      ("temperature_max", temperature_max);
                      ("temperature_min", temperature_min);
                      ("precipitation", precipitation);
                      ("weather_code", weather_code) ])
         else ret Null) ;;
      current_units <- getM w data "current_units" ;;
      daily_units <- getM w data "daily_units" ;;
      let formatted :=
        Obj [ ("location", Obj [ ("latitude", lat);
                                 ("longitude", lon);
                                 ("timezone", tz);
                                 ("elevation", elevation) ]);
              ("current", current');
              ("daily", daily');
              ("units",
               Obj [ ("temperature",
                      or_else (Member.get_opt w current_units "temperature_2m")
                              (Str "°C"));
                     ("humidity",
                      or_else (Member.get_opt w current_units "relative_humidity_2m")
                              (Str "%"));
                     ("wind_speed",
                      or_else (Member.get_opt w current_units "wind_speed_10m")
                              (Str "km/h"));
                     ("precipitation",
                      or_else (Member.get_opt w daily_units "precipitation_sum")
                              (Str "mm")) ]) ] in
      ret (CallToolResult [TextContent (JSON_stringify formatted)] None).

Definition get_weather_handler : Handler := fun w args =>
  match prop "latitude" args, prop "longitude" args,
        prop "timezone" args, prop "forecast_days" args with
  | Num latitude, Num longitude, Str timezone, Num forecast_days =>
      get_weather w latitude longitude timezone forecast_days
  | _, _, _, _ => throw (type_error w "get_weather")
  end.

(** *** The resource [server://info] *)

(** [availableTools]. *)
Definition availableTools : list value :=
  [
    Obj [
      ("name", Str "greeting");
      ("description", Str "인사하기 - 이름과 언어를 입력받아 인사 메시지를 반환합니다");
      ("parameters",
       Obj [
          ("name",
           Obj [
              ("type", Str "string");
              ("description", Str "인사할 사람의 이름");
              ("required", Bool true) ]);
          ("language",
           Obj [
              ("type", Str "enum");
              ("values", Arr [Str "ko"; Str "en"]);
              ("description", Str "인사 언어 (기본값: ko)");
              ("required", Bool false);
              ("default", Str "ko") ]) ]) ];
    Obj [
      ("name", Str "calculator");
      ("description", Str "계산기 - 두 개의 숫자와 연산자를 입력받아 사칙연산 결과를 반환합니다");
      ("parameters",
       Obj [
          ("a",
           Obj [
              ("type", Str "number");
              ("description", Str "첫 번째 숫자");
              ("required", Bool true) ]);
          ("b",
           Obj [
              ("type", Str "number");
              ("description", Str "두 번째 숫자");
              ("required", Bool true) ]);
          ("operator",
           Obj [
              ("type", Str "enum");
              ("values", Arr [Str "+"; Str "-"; Str "*"; Str "/"]);
              ("description", Str "연산자 (+, -, *, /)");
              ("required", Bool true) ]) ]) ];
    Obj [
      ("name", Str "get_time");
      ("description", Str "TIME MCP - 타임존을 입력받아 해당 지역의 현재 시간 정보를 반환합니다");
      ("parameters",
       Obj [
          ("timeZone",
           Obj [
              ("type", Str "string");
              ("description",
               Str "IANA 타임존 이름 (예: America/New_York, Europe/London, Asia/Seoul)");
              ("required", Bool true) ]) ]) ];
    Obj [
      ("name", Str "generate_image");
      ("description",
       Str "이미지 생성 - 프롬프트를 입력받아 AI로 생성한 이미지를 반환합니다 (Hugging Face API 사용)");
      ("parameters",
       Obj [
          ("prompt",
           Obj [
              ("type", Str "string");
              ("description", Str "이미지 생성을 위한 프롬프트");
              ("required", Bool true) ]) ]) ];
    Obj [
      ("name", Str "geocode");
      ("description",
       Str "Geocode MCP - 도시 이름이나 주소를 입력받아 위도/경도 좌표를 반환합니다 (Nominatim OpenStreetMap API 사용)");
      ("parameters",
       Obj [
          ("query",
           Obj [
              ("type", Str "string");
              ("description",
               Str ("검색할 도시 이름 또는 주소 (예: " ++ dquote ++ "Seoul" ++ dquote ++ ", " ++ dquote ++ "New York" ++ dquote ++ ", " ++ dquote ++ "서울시 강남구" ++ dquote ++ ")"));
              ("required", Bool true) ]);
          ("limit",
           Obj [
              ("type", Str "number");
              ("description", Str "반환할 결과 수 (기본값: 1, 최대: 40)");
              ("required", Bool false);
              ("default", Num 1);
              ("min", Num 1);
              ("max", Num 40) ]) ]) ];
    Obj [
      ("name", Str "get_weather");
      ("description",
       Str "날씨 정보 - 위도/경도 좌표를 입력받아 해당 지역의 날씨 정보를 반환합니다 (Open-Meteo API 사용)");
      ("parameters",
       Obj [
          ("latitude",
           Obj [
              ("type", Str "number");
              ("description", Str "위도 (WGS84)");
              ("required", Bool true);
              ("min", Num (-90));
              ("max", Num 90) ]);
          ("longitude",
           Obj [
              ("type", Str "number");
              ("description", Str "경도 (WGS84)");
              ("required", Bool true);
              ("min", Num (-180));
              ("max", Num 180) ]);
          ("timezone",
           Obj [
              ("type", Str "string");
              ("description", Str "시간대 (기본값: auto - 자동 감지)");
              ("required", Bool false);
              ("default", Str "auto") ]);
          ("forecast_days",
           Obj [
              ("type", Str "number");
              ("description", Str "예보 일수 (기본값: 3, 최대: 16)");
              ("required", Bool false);
              ("default", Num 3);
              ("min", Num 1);
              ("max", Num 16) ]) ]) ] ].

(** [array.length], as a number. *)
Definition length_of {A} (l : list A) : float :=
  PrimFloat.of_uint63 (Uint63.of_Z (Z.of_nat (List.length l))).

Definition serverInfo (w : World) : value :=
  Obj [
    ("server",
     Obj [
       ("name", Str "typescript-mcp-server");
       ("version", Str "1.0.0");
       ("description", Str "TypeScript MCP Server 보일러플레이트");
       ("timestamp", Str (Date_toISOString w (Date_now w)));
       ("uptime", Num (process_uptime w));
       ("nodeVersion", Str (process_version w));
       ("platform", Str (process_platform w));
       ("architecture", Str (process_arch w)) ]);
    ("capabilities",
     Obj [
       ("tools", Num (length_of availableTools));
       ("resources", Num 1);
       ("prompts", Num 1) ]);
    ("tools", Arr availableTools);
    ("resources",
     Arr [
       Obj [
         ("uri", Str "server://info");
         ("name", Str "서버 정보 및 도구 목록");
         ("description", Str "현재 서버 정보와 사용 가능한 모든 도구 정보를 반환합니다") ] ]);
    ("prompts",
     Arr [
       Obj [
         ("name", Str "code_review");
         ("description",
          Str "Code Review MCP - 코드를 입력받아 미리 정의된 프롬프트 템플릿을 결합하여 상세한 코드 리뷰를 제공합니다");
         ("parameters",
          Obj [
             ("code",
              Obj [
                 ("type", Str "string");
                 ("description", Str "리뷰할 코드");
                 ("required", Bool true) ]);
             ("language",
              Obj [
                 ("type", Str "string");
                 ("description",
                  Str "코드 언어 (예: typescript, javascript, python, java 등, 기본값: auto)");
                 ("required", Bool false);
                 ("default", Str "auto") ]);
             ("focus_areas",
              Obj [
                 ("type", Str "string");
                 ("description",
                  Str "리뷰에 집중할 영역 (쉼표로 구분: quality,performance,security,maintainability,best_practices,all, 기본값: all)");
                 ("required", Bool false);
                 ("default", Str "all") ]);
             ("include_suggestions",
              Obj [
                 ("type", Str "string");
                 ("description", Str "개선 제안 포함 여부 (true/false, 기본값: true)");
                 ("required", Bool false);
                 ("default", Str "true") ]) ]) ] ]) ].

Definition server_info : Handler := fun w args =>
  ret (ReadResourceResult
         [ {| uri := "server://info";
              mimeType := "application/json";
              text := JSON_stringify (serverInfo w) |} ]).

(** *** The prompt [code_review] *)

Definition code_review_schema : Descriptor :=
  [ ("code", z_string |> describe "리뷰할 코드");
    ("language", z_string |> optional |> describe
       "코드 언어 (예: typescript, javascript, python, java 등, 기본값: auto - 자동 감지)");
    ("focus_areas", z_string |> optional |> describe
       "리뷰에 집중할 영역 (쉼표로 구분: quality,performance,security,maintainability,best_practices,all, 기본값: all)");
    ("include_suggestions", z_string |> optional |> describe
       "개선 제안 포함 여부 (true/false, 기본값: true)") ].

(** The line feed of the source's string escapes. *)
Definition nl : string := String (ascii_of_nat 10) "".

(** [cond ? [section] : []], for the [if (...) sections.push(...)] steps. *)
Definition push_if (cond : bool) (section : string) (sections : list string)
  : list string :=
  if cond then (sections ++ [section])%list else sections.

Definition code_review (code : string)
    (language focus_areas include_suggestions : option string) : Async Result :=
  let finalLanguage :=
    match language with
    | Some l => l
    | None => "auto"
    end in
  let finalFocusAreas :=
    match focus_areas with
    | Some f => if String.eqb f "" then ["all"] else map trim (split_on "," f)
    | None => ["all"]
    end in
  let finalIncludeSuggestions :=
    match include_suggestions with
    | Some s => if String.eqb s "" then true else String.eqb (toLowerCase s) "true"
    | None => true
    end in
  let header := "다음 코드를 상세히 분석하고 리뷰해주세요." in
  let footer :=
    if finalIncludeSuggestions
    then nl ++ "각 항목에 대해 구체적인 개선 제안과 예시 코드를 포함해주세요."
    else "" in
  let wants area := includes finalFocusAreas "all" || includes finalFocusAreas area in
  let sections :=
    push_if (wants "best_practices")
      ("## 5. 모범 사례 및 표준 준수" ++ nl ++
       "- 언어별 코딩 표준 준수" ++ nl ++
       "- 디자인 패턴 적용 (해당되는 경우)" ++ nl ++
       "- SOLID 원칙 준수 (해당되는 경우)" ++ nl ++
       "- 에러 핸들링 패턴")
    (push_if (wants "maintainability")
      ("## 4. 유지보수성" ++ nl ++
       "- 코드 모듈화 및 재사용성" ++ nl ++
       "- 테스트 가능성" ++ nl ++
       "- 문서화 및 주석" ++ nl ++
       "- 의존성 관리")
    (push_if (wants "security")
      ("## 3. 보안 고려사항" ++ nl ++
       "- 입력 검증 및 sanitization" ++ nl ++
       "- SQL Injection, XSS 등 취약점" ++ nl ++
       "- 인증 및 권한 관리" ++ nl ++
       "- 민감한 정보 처리 (API 키, 비밀번호 등)" ++ nl ++
       "- 에러 처리 및 정보 노출 방지")
    (push_if (wants "performance")
      ("## 2. 성능 최적화" ++ nl ++
       "- 알고리즘 효율성" ++ nl ++
       "- 불필요한 연산 또는 메모리 사용" ++ nl ++
       "- 비동기 처리 최적화 (해당되는 경우)" ++ nl ++
       "- 데이터베이스 쿼리 최적화 (해당되는 경우)")
    (push_if (wants "quality")
      ("## 1. 코드 품질 평가" ++ nl ++
       "- 코드 가독성 및 명확성" ++ nl ++
       "- 네이밍 컨벤션 준수 여부" ++ nl ++
       "- 코드 구조 및 조직화" ++ nl ++
       "- 중복 코드 존재 여부")
      [])))) in
  let languageInfo :=
    if negb (String.eqb finalLanguage "auto")
    then nl ++ "**코드 언어**: " ++ finalLanguage ++ nl
    else nl ++ "**코드 언어**: 자동 감지" ++ nl in
  let promptText :=
    header ++
    languageInfo ++
    nl ++
    join (nl ++ nl) sections ++
    nl ++ nl ++
    "---" ++ nl ++ nl ++
    "**리뷰할 코드:**" ++ nl ++ nl ++
    "```" ++ (if negb (String.eqb finalLanguage "auto") then finalLanguage else "") ++ nl ++
    code ++
    nl ++ "```" ++
    footer in
  ret (GetPromptResult
         [ {| role := "user"; content := TextContent promptText |} ]).

(** An optional string argument: absent from the validated arguments
    when the request did not give it. *)
Definition optional_string (v : value) : option string :=
  match v with
  | Str s => Some s
  | _ => None
  end.

Definition code_review_handler : Handler := fun w args =>
  match prop "code" args with
  | Str code =>
      code_review code
        (optional_string (prop "language" args))
        (optional_string (prop "focus_areas" args))
        (optional_string (prop "include_suggestions" args))
  | _ => throw (type_error w "code_review")
  end.

End Server.

(** ** Registry, dispatcher, normalizer, error translator *)

Module Core.

Import JS Zod MCP Effects.

Record Capability : Type := {
  cap_kind : Kind;
  cap_name : string;
  cap_descriptor : Descriptor;
  cap_handler : Server.Handler
}.

Definition Registry := list Capability.

Inductive RegistrationError : Type :=
| DuplicateCapability (k : Kind) (name : string).

(** Modelled from the spec: the registry is the protocol library's, not
    the repository's; [resolve] finds the record registered under a
    kind and a name. *)
Definition resolve (reg : Registry) (k : Kind) (name : string) : option Capability :=
  find (fun c => Kind_eqb (cap_kind c) k && String.eqb (cap_name c) name) reg.

Definition capability (k : Kind) (name : string) (d : Descriptor)
    (h : Server.Handler) : Capability :=
  {| cap_kind := k; cap_name := name; cap_descriptor := d; cap_handler := h |}.

(** Modelled from the spec: the registry is the protocol library's, not
    the repository's; [register] refuses a pair that is already there. *)
Definition register (k : Kind) (name : string) (d : Descriptor)
    (h : Server.Handler) (reg : Registry) : RegistrationError + Registry :=
  match resolve reg k name with
  | Some _ => inl (DuplicateCapability k name)
  | None => inr (reg ++ [capability k name d h])%list
  end.

(** The classes of failure of a dispatch. *)
Inductive Failure : Type :=
| NotFound (k : Kind) (name : string)
| ValidationFailed (e : ValidationError)
| HandlerFailed (t : Thrown)
| NormalizationFailed.

Record ErrorResult : Type := {
  cause : Failure;
  message : string
}.

Definition violation (e : ValidationError) : string :=
  match e with
  | MissingRequiredField name => name ++ ": missing"
  | TypeMismatch name _ => name ++ ": wrong type"
  | OutOfRange name _ _ _ => name ++ ": out of range"
  | InvalidEnumValue name _ _ => name ++ ": invalid choice"
  end.

(** Modelled from the spec: the error translator is the protocol
    library's, not the repository's; one message per class of failure,
    the handler's own message behind a prefix that names the stage. *)
Definition translate (f : Failure) : ErrorResult :=
  {| cause := f;
     message :=
       match f with
       | NotFound k name => "no such " ++ Kind_name k ++ " named " ++ name
       | ValidationFailed e => "invalid arguments: " ++ violation e
       | HandlerFailed t => "handler failed: " ++ message_or "unknown error" t
       | NormalizationFailed => "malformed result"
       end |}.

(** Modelled from the spec: the normalizer is the protocol library's,
    not the repository's; the callbacks of this server already return
    the envelope of their kind, which is passed on as it is. *)
Definition normalize (k : Kind) (r : Result) : option Result :=
  match k, r with
  | Tool, CallToolResult _ _ => Some r
  | Resource, ReadResourceResult _ => Some r
  | Prompt, GetPromptResult _ => Some r
  | _, _ => None
  end.

Inductive DispatchResult : Type :=
| ResponseEnvelope (r : Result)
| ErrorResponse (e : ErrorResult).

(** Modelled from the spec: the dispatcher is the protocol library's,
    not the repository's; resolve, validate, invoke, then normalize or
    translate.  The events record the invocation of the handler and what
    it asked of the world. *)
Definition dispatch (reg : Registry) (w : World) (k : Kind) (name : string)
    (raw : object) : list Event * DispatchResult :=
  match resolve reg k name with
  | None => ([], ErrorResponse (translate (NotFound k name)))
  | Some c =>
      match validate (cap_descriptor c) raw with
      | inl e => ([], ErrorResponse (translate (ValidationFailed e)))
      | inr args =>
          let '(events, outcome) := cap_handler c w args in
          (Invoked k name :: events,
           match outcome with
           | inl t => ErrorResponse (translate (HandlerFailed t))
           | inr r =>
               match normalize k r with
               | Some envelope => ResponseEnvelope envelope
               | None => ErrorResponse (translate NormalizationFailed)
               end
           end)
      end
  end.

Definition and_then {E A B} (m : E + A) (k : A -> E + B) : E + B :=
  match m with
  | inl e => inl e
  | inr a => k a
  end.

(** [createServer]: the registrations, in the order of the source. *)
Definition createServer (config : Server.Config) : RegistrationError + Registry :=
  and_then (register Tool "greeting" Server.greeting_schema Server.greeting_handler [])
  (fun r1 =>
  and_then (register Tool "calculator" Server.calculator_schema Server.calculator_handler r1)
  (fun r2 =>
  and_then (register Tool "get_time" Server.get_time_schema Server.get_time_handler r2)
  (fun r3 =>
  and_then (register Tool "generate_image" Server.generate_image_schema
              (Server.generate_image_handler config) r3)
  (fun r4 =>
  and_then (register Tool "geocode" Server.geocode_schema Server.geocode_handler r4)
  (fun r5 =>
  and_then (register Tool "get_weather" Server.get_weather_schema
              Server.get_weather_handler r5)
  (fun r6 =>
  and_then (register Resource "server://info" [] Server.server_info r6)
  (fun r7 =>
  register Prompt "code_review" Server.code_review_schema
    Server.code_review_handler r7))))))).

(** The registry that [createServer] builds. *)
Definition registry (config : Server.Config) : Registry :=
  [ capability Tool "greeting" Server.greeting_schema Server.greeting_handler;
    capability Tool "calculator" Server.calculator_schema Server.calculator_handler;
    capability Tool "get_time" Server.get_time_schema Server.get_time_handler;
    capability Tool "generate_image" Server.generate_image_schema
      (Server.generate_image_handler config);
    capability Tool "geocode" Server.geocode_schema Server.geocode_handler;
    capability Tool "get_weather" Server.get_weather_schema
      Server.get_weather_handler;
    capability Resource "server://info" [] Server.server_info;
    capability Prompt "code_review" Server.code_review_schema
      Server.code_review_handler ].

(** A request to the server that [createServer config] returns. *)
Definition serve (config : Server.Config) (w : World) (k : Kind)
    (name : string) (raw : object) : list Event * DispatchResult :=
  dispatch (registry config) w k name raw.

End Core.

(** ** Inputs for the concrete runs *)

Module Sample.

Import JS Effects.

(** A world at the epoch, whose upstream services answer with an empty
    list of matches and a three-byte image. *)
Definition world : World :=
  {| Date_now := 0;
     Date_toISOString := fun _ => "1970-01-01T00:00:00.000Z";
     Date_toLocaleString_enUS := fun _ _ => inr "1/1/1970, 12:00:00 AM";
     Date_parse := fun _ => 0%float;
     Intl_DateTimeFormat_koKR := fun _ => inr (fun _ => "1970. 01. 01. 00:00:00");
     parseFloat := fun _ => PrimFloat.nan;
     type_error := fun key => Error ("Cannot read properties of undefined: " ++ key);
     process_uptime := 1.5;
     process_version := "v20.0.0";
     process_platform := "linux";
     process_arch := "x64";
     fetch := fun _ =>
       inr {| ok := true; status := 200; statusText := "OK"; json := inr (Arr []) |};
     textToImage := fun _ _ => inr (list_ascii_of_string "PNG") |}.

Definition config : Server.Config := {| Server.hfToken := Some "hf_token" |}.

End Sample.

(** ** What the claims speak of *)

Module Spec.

Import JS MCP.

(** The arithmetic result of applying an operator of the calculator to
    two numbers. *)
Definition arithmetic (operator : string) (a b : float) : float :=
  if String.eqb operator "+" then (a + b)%float
  else if String.eqb operator "-" then (a - b)%float
  else if String.eqb operator "*" then (a * b)%float
  else (a / b)%float.

(** [needle] occurs in [s]. *)
Definition occurs (needle s : string) : Prop :=
  exists pre post, s = pre ++ needle ++ post.

(** The key of the server description under which the capabilities of a
    kind are listed, and the property that identifies one of them. *)
Definition kind_key (k : Kind) : string :=
  match k with
  | Tool => "tools"
  | Resource => "resources"
  | Prompt => "prompts"
  end.

Definition identifier_key (k : Kind) : string :=
  match k with
  | Tool | Prompt => "name"
  | Resource => "uri"
  end.

(** The description lists [name] among the capabilities of kind [k]. *)
Definition listed (info : value) (k : Kind) (name : string) : bool :=
  match info with
  | Obj props =>
      match prop (kind_key k) props with
      | Arr entries =>
          existsb (fun entry =>
                     match entry with
                     | Obj fields =>
                         match prop (identifier_key k) fields with
                         | Str s => String.eqb s name
                         | _ => false
                         end
                     | _ => false
                     end) entries
      | _ => false
      end
  | _ => false
  end.

(** [p] is a prefix of [s]. *)
Fixpoint starts_with (p s : string) : bool :=
  match p, s with
  | EmptyString, _ => true
  | String _ _, EmptyString => false
  | String a p', String b s' => Ascii.eqb a b && starts_with p' s'
  end.

Fixpoint occurs_in (needle s : string) : bool :=
  starts_with needle s ||
  match s with
  | EmptyString => false
  | String _ rest => occurs_in needle rest
  end.

(** The rendered properties of an object, as [JSON.stringify] joins
    them. *)
Definition rendered (inner : string) (props : list (string * value))
  : list string :=
  (fix go (l : list (string * value)) : list string :=
     match l with
     | [] => []
     | (k, Undefined) :: rest => go rest
     | (k, x) :: rest => (quote k ++ ": " ++ serialize inner x) :: go rest
     end) props.

(** A result with at least one entry, if there is a result. *)
Definition nonempty (m : Effects.Async Result) : Prop :=
  forall r, snd m = inr r -> (1 <= entries r)%nat.

End Spec.

(** ** Named parts of the handlers *)

Module Parts.

Import JS JSString Zod MCP Effects.

(** The number of an integer. *)
Definition of_Z (z : Z) : float :=
  if (z <? 0)%Z then PrimFloat.opp (PrimFloat.of_uint63 (Uint63.of_Z (- z)))
  else PrimFloat.of_uint63 (Uint63.of_Z z).

(** The message of every failure of [get_time]. *)
Definition invalid_time_zone (timeZone : string) : string :=
  "유효하지 않은 타임존입니다: " ++ timeZone ++
  ". IANA 타임존 형식(예: America/New_York)을 사용해주세요.".

(** [offsetHours], [offsetMinutes], [offsetSign] and [offsetString],
    from the difference in milliseconds between the two parsed dates of
    [get_time]. *)
Definition offset_hours (diff : float) : float :=
  JSMath.floor (JSMath.abs (diff / (1000 * 60 * 60))%float).

Definition offset_minutes (diff : float) : float :=
  JSMath.floor
    ((JSMath.abs (diff / (1000 * 60 * 60)) - offset_hours diff) * 60)%float.

Definition offset_sign (diff : float) : string :=
  if PrimFloat.leb 0 (diff / (1000 * 60 * 60))%float then "+" else "-".

Definition offset_string (diff : float) : string :=
  "UTC" ++ offset_sign diff ++
  padStart 2 "0" (JSNumber.toString (offset_hours diff)) ++ ":" ++
  padStart 2 "0" (JSNumber.toString (offset_minutes diff)).

(** [timeInfo], from what the runtime answered. *)
Definition time_info (timeZone formattedTime utcTime : string)
    (now diff : float) : value :=
  Obj [ ("timezone", Str timeZone);
        ("localTime", Str formattedTime);
        ("utcTime", Str utcTime);
        ("offset", Str (offset_string diff));
        ("timestamp", Num now);
        ("date", Server.index (split_on " " formattedTime) 0);
        ("time", Server.index (split_on " " formattedTime) 1) ].

(** An offset of [minutes] minutes, as it should be written. *)
Definition written_offset (minutes : Z) : string :=
  "UTC" ++ (if (minutes <? 0)%Z then "-" else "+") ++
  padStart 2 "0" (JSNumber.digits_of_Z (Z.abs minutes / 60)) ++ ":" ++
  padStart 2 "0" (JSNumber.digits_of_Z (Z.abs minutes mod 60)).

(** The quarters of an hour from -12:00 to +14:00. *)
Definition quarter_hours : list Z :=
  map (fun i => (Z.of_nat i - 48)%Z) (seq 0 105).

(** The hours and the minutes that such an offset can show. *)
Definition offset_numbers : list Z :=
  [0; 1; 2; 3; 4; 5; 6; 7; 8; 9; 10; 11; 12; 13; 14; 15; 30; 45]%Z.

(** What is checked of the quarter [q]: the hours, the minutes and the
    sign that [get_time] computes from its milliseconds. *)
Definition quarter_checked (q : Z) : bool :=
  let diff := of_Z (q * 900000) in
  let minutes := (Z.abs (q * 15))%Z in
  PrimFloat.Leibniz.eqb (offset_hours diff) (of_Z (minutes / 60)) &&
  PrimFloat.Leibniz.eqb (offset_minutes diff) (of_Z (minutes mod 60)) &&
  String.eqb (offset_sign diff) (if (q * 15 <? 0)%Z then "-" else "+") &&
  existsb (Z.eqb (minutes / 60)) offset_numbers &&
  existsb (Z.eqb (minutes mod 60)) offset_numbers.

(** A string without a space. *)
Definition no_space (s : string) : bool :=
  forallb (fun c => negb (Ascii.eqb c " ")) (list_ascii_of_string s).

(** The message of [generate_image] without a token. *)
Definition token_required : string :=
  "hfToken 설정이 필요합니다. Smithery 설정에서 Hugging Face API 토큰을 입력해주세요.".

Definition image_failed (reason : string) : string :=
  "이미지 생성 중 오류가 발생했습니다: " ++ reason.

(** The request of [generate_image] for a prompt. *)
Definition image_request (prompt : string) : TextToImageArgs :=
  {| provider := "auto";
     model := "black-forest-labs/FLUX.1-schnell";
     inputs := prompt;
     num_inference_steps := 5 |}.

(** A clock in Seoul, for the concrete runs of [get_time]. *)
Definition seoul_clock : World :=
  {| Date_now := 1705329045000;
     Date_toISOString := fun _ => "2024-01-15T14:30:45.000Z";
     Date_toLocaleString_enUS := fun tz _ =>
       if String.eqb tz "UTC" then inr "1/15/2024, 2:30:45 PM"
       else inr "1/15/2024, 11:30:45 PM";
     Date_parse := fun s =>
       if String.eqb s "1/15/2024, 2:30:45 PM" then 1705329045000%float
       else 1705361445000%float;
     Intl_DateTimeFormat_koKR := fun _ => inr (fun _ => "2024. 01. 15. 23:30:45");
     parseFloat := fun _ => PrimFloat.nan;
     type_error := fun key => Error ("Cannot read properties of undefined: " ++ key);
     process_uptime := 1.5;
     process_version := "v20.0.0";
     process_platform := "linux";
     process_arch := "x64";
     fetch := fun _ => inl NotAnError;
     textToImage := fun _ _ => inl NotAnError |}.

(** A runtime that knows no time zone. *)
Definition no_such_zone : World :=
  {| Date_now := 1705329045000;
     Date_toISOString := fun _ => "2024-01-15T14:30:45.000Z";
     Date_toLocaleString_enUS := fun _ _ =>
       inl (Error "Invalid time zone specified");
     Date_parse := fun _ => 0%float;
     Intl_DateTimeFormat_koKR := fun _ =>
       inl (Error "Invalid time zone specified");
     parseFloat := fun _ => PrimFloat.nan;
     type_error := fun key => Error ("Cannot read properties of undefined: " ++ key);
     process_uptime := 1.5;
     process_version := "v20.0.0";
     process_platform := "linux";
     process_arch := "x64";
     fetch := fun _ => inl NotAnError;
     textToImage := fun _ _ => inl NotAnError |}.

(** The fallback of [error instanceof Error ? error.message : ...]. *)
Definition unknown_error : string := "알 수 없는 오류".

(** The message of every failure of [geocode]. *)
Definition geocode_failed (reason : string) : string :=
  "지오코딩 중 오류가 발생했습니다: " ++ reason.

(** A value other than [null] and [undefined]. *)
Definition defined (v : value) : bool :=
  match v with
  | Undefined | Null => false
  | _ => true
  end.

(** [v.key] where it does not throw. *)
Definition member (w : World) (v : value) (key : string) : value :=
  match Member.get w v key with
  | inr x => x
  | inl _ => Undefined
  end.

(** The object that the callback of [results.map] builds from one
    match. *)
Definition geocode_entry (w : World) (r : value) : value :=
  Obj [ ("display_name", member w r "display_name");
        ("latitude", Num (parseFloat w (member w r "lat")));
        ("longitude", Num (parseFloat w (member w r "lon")));
        ("coordinates", Obj [ ("lat", Num (parseFloat w (member w r "lat")));
                              ("lon", Num (parseFloat w (member w r "lon"))) ]);
        ("place_id", member w r "place_id");
        ("osm_type", member w r "osm_type");
        ("osm_id", member w r "osm_id");
        ("type", member w r "type");
        ("category", member w r "category");
        ("importance", member w r "importance");
        ("address", or_else (member w r "address") Null);
        ("boundingbox", or_else (member w r "boundingbox") Null) ].

(** The message of the failures that [get_weather] reports itself. *)
Definition weather_failed (reason : string) : string :=
  "Open-Meteo API 오류: " ++ reason.

(** [formatted], the report that [get_weather] builds from the answer
    of the upstream. *)
Definition weather_report (w : World) (data : value) : value :=
  Obj [ ("location", Obj [ ("latitude", member w data "latitude");
                           ("longitude", member w data "longitude");
                           ("timezone", member w data "timezone");
                           ("elevation", member w data "elevation") ]);
        ("current",
         if truthy (member w data "current") then
           Obj [ ("temperature",
                  member w (member w data "current") "temperature_2m");
                 ("humidity",
                  member w (member w data "current") "relative_humidity_2m");
                 ("weather_code",
                  member w (member w data "current") "weather_code");
                 ("wind_speed",
                  member w (member w data "current") "wind_speed_10m");
                 ("time", member w (member w data "current") "time") ]
         else Null);
        ("daily",
         if truthy (member w data "daily") then
           Obj [ ("time", member w (member w data "daily") "time");
                 ("temperature_max",
                  member w (member w data "daily") "temperature_2m_max");
                 ("temperature_min",
                  member w (member w data "daily") "temperature_2m_min");
                 ("precipitation",
                  member w (member w data "daily") "precipitation_sum");
                 ("weather_code",
                  member w (member w data "daily") "weather_code") ]
         else Null);
        ("units",
         Obj [ ("temperature",
                or_else (Member.get_opt w (member w data "current_units")
                           "temperature_2m") (Str "°C"));
               ("humidity",
                or_else (Member.get_opt w (member w data "current_units")
                           "relative_humidity_2m") (Str "%"));
               ("wind_speed",
                or_else (Member.get_opt w (member w data "current_units")
                           "wind_speed_10m") (Str "km/h"));
               ("precipitation",
                or_else (Member.get_opt w (member w data "daily_units")
                           "precipitation_sum") (Str "mm")) ]) ].

(** *** The review prompt *)

(** The line feed of the prompt. *)
Definition nl : string := Server.nl.

Definition section_quality : string :=
  ("## 1. 코드 품질 평가" ++ nl ++
   "- 코드 가독성 및 명확성" ++ nl ++
   "- 네이밍 컨벤션 준수 여부" ++ nl ++
   "- 코드 구조 및 조직화" ++ nl ++
   "- 중복 코드 존재 여부").

Definition section_performance : string :=
  ("## 2. 성능 최적화" ++ nl ++
   "- 알고리즘 효율성" ++ nl ++
   "- 불필요한 연산 또는 메모리 사용" ++ nl ++
   "- 비동기 처리 최적화 (해당되는 경우)" ++ nl ++
   "- 데이터베이스 쿼리 최적화 (해당되는 경우)").

Definition section_security : string :=
  ("## 3. 보안 고려사항" ++ nl ++
   "- 입력 검증 및 sanitization" ++ nl ++
   "- SQL Injection, XSS 등 취약점" ++ nl ++
   "- 인증 및 권한 관리" ++ nl ++
   "- 민감한 정보 처리 (API 키, 비밀번호 등)" ++ nl ++
   "- 에러 처리 및 정보 노출 방지").

Definition section_maintainability : string :=
  ("## 4. 유지보수성" ++ nl ++
   "- 코드 모듈화 및 재사용성" ++ nl ++
   "- 테스트 가능성" ++ nl ++
   "- 문서화 및 주석" ++ nl ++
   "- 의존성 관리").

Definition section_best_practices : string :=
  ("## 5. 모범 사례 및 표준 준수" ++ nl ++
   "- 언어별 코딩 표준 준수" ++ nl ++
   "- 디자인 패턴 적용 (해당되는 경우)" ++ nl ++
   "- SOLID 원칙 준수 (해당되는 경우)" ++ nl ++
   "- 에러 핸들링 패턴").


(** The areas of a review with their sections, in the order of the
    prompt. *)
Definition review_sections : list (string * string) :=
  [ ("quality", section_quality);
    ("performance", section_performance);
    ("security", section_security);
    ("maintainability", section_maintainability);
    ("best_practices", section_best_practices) ].

(** [finalLanguage], [finalFocusAreas] and [finalIncludeSuggestions]. *)
Definition final_language (language : option string) : string :=
  match language with
  | Some l => l
  | None => "auto"
  end.

Definition final_focus_areas (focus_areas : option string) : list string :=
  match focus_areas with
  | Some f => if String.eqb f "" then ["all"] else map trim (split_on "," f)
  | None => ["all"]
  end.

Definition final_include_suggestions (include_suggestions : option string)
  : bool :=
  match include_suggestions with
  | Some s => if String.eqb s "" then true else String.eqb (toLowerCase s) "true"
  | None => true
  end.

(** The test of each [if] before a [sections.push]. *)
Definition wanted (areas : list string) (area : string) : bool :=
  includes areas "all" || includes areas area.

(** [reviewTemplate.sections] after the five steps. *)
Definition sections_for (areas : list string) : list string :=
  Server.push_if (wanted areas "best_practices") section_best_practices
    (Server.push_if (wanted areas "maintainability") section_maintainability
       (Server.push_if (wanted areas "security") section_security
          (Server.push_if (wanted areas "performance") section_performance
             (Server.push_if (wanted areas "quality") section_quality [])))).

Definition review_footer (suggestions : bool) : string :=
  if suggestions
  then nl ++ "각 항목에 대해 구체적인 개선 제안과 예시 코드를 포함해주세요."
  else "".

(** The fenced block that holds the code. *)
Definition fenced (language code : string) : string :=
  "```" ++ (if negb (String.eqb language "auto") then language else "") ++ nl ++
  code ++ nl ++ "```".

(** [promptText] up to the fenced block. *)
Definition review_head (language : string) (sections : list string) : string :=
  "다음 코드를 상세히 분석하고 리뷰해주세요." ++
  (if negb (String.eqb language "auto")
   then nl ++ "**코드 언어**: " ++ language ++ nl
   else nl ++ "**코드 언어**: 자동 감지" ++ nl) ++
  nl ++
  join (nl ++ nl) sections ++
  nl ++ nl ++
  "---" ++ nl ++ nl ++
  "**리뷰할 코드:**" ++ nl ++ nl.

(** The message that holds a prompt text. *)
Definition prompt_of (text : string) : Async Result :=
  ([], inr (GetPromptResult
              [ {| role := "user"; content := TextContent text |} ])).

(** [promptText]. *)
Definition review_text (code : string)
    (language focus_areas include_suggestions : option string) : string :=
  review_head (final_language language)
    (sections_for (final_focus_areas focus_areas)) ++
  fenced (final_language language) code ++
  review_footer (final_include_suggestions include_suggestions).

(** The six words that a focus area is compared with. *)
Definition focus_words : list string :=
  ["all"; "quality"; "performance"; "security"; "maintainability";
   "best_practices"].

(** *** The documentation of the parameters in [server://info] *)

Definition kind_word (k : FieldKind) : string :=
  match k with
  | KString => "string"
  | KNumber _ _ => "number"
  | KBoolean => "boolean"
  | KEnum _ => "enum"
  end.

Definition optional_entry (key : string) (v : option value)
  : list (string * value) :=
  match v with
  | Some x => [(key, x)]
  | None => []
  end.

(** The entry that documents a field of a schema: its type, the values
    of an enumeration, its description, whether it is required, its
    default and its bounds. *)
Definition documented (f : FieldSpec) : value :=
  Obj ([("type", Str (kind_word (kind f)))] ++
       match kind f with
       | KEnum allowed => [("values", Arr (map Str allowed))]
       | _ => []
       end ++
       [("description",
         match description f with
         | Some s => Str s
         | None => Undefined
         end);
        ("required", Bool (required f))] ++
       optional_entry "default" (default f) ++
       match kind f with
       | KNumber lo hi =>
           optional_entry "min" (option_map Num lo) ++
           optional_entry "max" (option_map Num hi)
       | _ => []
       end)%list.

(** The name and the documented parameters of a registered capability. *)
Definition documentation (c : Core.Capability) : value * value :=
  (Str (Core.cap_name c),
   Obj (map (fun p => (fst p, documented (snd p))) (Core.cap_descriptor c))).

(** The capabilities of a kind in a registry. *)
Definition of_kind (k : Kind) (reg : Core.Registry) : list Core.Capability :=
  filter (fun c => Kind_eqb (Core.cap_kind c) k) reg.

(** What the entry of a parameter says of its type and of whether it is
    required. *)
Definition type_and_required (entry : string * value) : string * value * value :=
  match snd entry with
  | Obj fields => (fst entry, prop "type" fields, prop "required" fields)
  | _ => (fst entry, Undefined, Undefined)
  end.

(** [v.key] on a value that is an object. *)
Definition field (key : string) (v : value) : value :=
  match v with
  | Obj fields => prop key fields
  | _ => Undefined
  end.

(** The tools that ask something of an upstream service. *)
Definition calling_tools : list string :=
  ["generate_image"; "geocode"; "get_weather"].

(** *** Reading base64 back *)

(** The value of a character of the base64 alphabet. *)
Definition sextet_of (c : ascii) : option nat :=
  (fix go (s : string) (i : nat) : option nat :=
     match s with
     | EmptyString => None
     | String x rest => if Ascii.eqb x c then Some i else go rest (S i)
     end) Buffer.alphabet 0.

(** The bytes that a base64 text with padding stands for. *)
Fixpoint from_base64 (s : string) : option (list ascii) :=
  match s with
  | EmptyString => Some []
  | String a (String b (String c (String d rest))) =>
      match sextet_of a, sextet_of b with
      | Some x, Some y =>
          let first := ascii_of_nat (x * 4 + y / 16) in
          if Ascii.eqb c "=" then
            if Ascii.eqb d "=" then
              match rest with
              | EmptyString => Some [first]
              | _ => None
              end
            else None
          else
            match sextet_of c with
            | Some z =>
                let second := ascii_of_nat ((y mod 16) * 16 + z / 4) in
                if Ascii.eqb d "=" then
                  match rest with
                  | EmptyString => Some [first; second]
                  | _ => None
                  end
                else
                  match sextet_of d with
                  | Some u =>
                      match from_base64 rest with
                      | Some l =>
                          Some (first :: second ::
                                ascii_of_nat ((z mod 4) * 64 + u) :: l)
                      | None => None
                      end
                  | None => None
                  end
            | None => None
            end
      | _, _ => None
      end
  | _ => None
  end.

(** The character of a sextet is read back as that sextet, and is not
    the padding. *)
Definition sextet_read_back (k : nat) : bool :=
  match Buffer.sextet k with
  | String c EmptyString =>
      match sextet_of c with
      | Some k' => Nat.eqb k' k && negb (Ascii.eqb c "=")
      | None => false
      end
  | _ => false
  end.

(** A world whose upstream answers every request with [body]. *)
Definition answering (body : value) : World :=
  {| Date_now := 0;
     Date_toISOString := fun _ => "1970-01-01T00:00:00.000Z";
     Date_toLocaleString_enUS := fun _ _ => inr "1/1/1970, 12:00:00 AM";
     Date_parse := fun _ => 0%float;
     Intl_DateTimeFormat_koKR := fun _ => inr (fun _ => "1970. 01. 01. 00:00:00");
     parseFloat := fun v =>
       match v with
       | Str "37.5" => 37.5%float
       | Str "127" => 127%float
       | _ => PrimFloat.nan
       end;
     type_error := fun key => Error ("Cannot read properties of undefined: " ++ key);
     process_uptime := 1.5;
     process_version := "v20.0.0";
     process_platform := "linux";
     process_arch := "x64";
     fetch := fun _ =>
       inr {| ok := true; status := 200; statusText := "OK"; json := inr body |};
     textToImage := fun _ _ => inl NotAnError |}.

(** A world whose upstream answers every request with a status that is
    not a success. *)
Definition refusing (code : float) (reason : string) : World :=
  {| Date_now := 0;
     Date_toISOString := fun _ => "1970-01-01T00:00:00.000Z";
     Date_toLocaleString_enUS := fun _ _ => inr "1/1/1970, 12:00:00 AM";
     Date_parse := fun _ => 0%float;
     Intl_DateTimeFormat_koKR := fun _ => inr (fun _ => "1970. 01. 01. 00:00:00");
     parseFloat := fun _ => PrimFloat.nan;
     type_error := fun key => Error ("Cannot read properties of undefined: " ++ key);
     process_uptime := 1.5;
     process_version := "v20.0.0";
     process_platform := "linux";
     process_arch := "x64";
     fetch := fun _ =>
       inr {| ok := false; status := code; statusText := reason;
              json := inr Null |};
     textToImage := fun _ _ => inl NotAnError |}.

End Parts.

(** ** Facts on the order of floats *)

Section FloatOrder.

Lemma SFcompare_refl p : p <> S754_nan -> SFcompare p p = Some Eq.
Proof.
  destruct p as [s | s | | s m e]; simpl; intros H; try congruence.
  - destruct s; reflexivity.
  - destruct s; rewrite Z.compare_refl, Pos.compare_cont_refl; reflexivity.
Qed.

Lemma SFcompare_antisym p q :
  SFcompare q p = option_map CompOpp (SFcompare p q).
Proof.
  destruct p as [s | s | | s m e], q as [s' | s' | | s' m' e']; simpl;
    try reflexivity; try (destruct s; reflexivity);
    try (destruct s'; reflexivity); try (destruct s, s'; reflexivity).
  destruct s, s'; try reflexivity;
    rewrite (Z.compare_antisym e e');
    destruct (e ?= e')%Z; simpl; try reflexivity;
    pose proof (Pos.compare_cont_antisym m m' Eq) as A; simpl in A;
    rewrite <- A; reflexivity.
Qed.

Lemma ltb_not_nan_l x y :
  PrimFloat.ltb x y = true -> PrimFloat.is_nan x = false.
Proof.
  unfold PrimFloat.is_nan. rewrite ltb_spec, eqb_spec. unfold SFltb, SFeqb.
  intros H. rewrite SFcompare_refl; [reflexivity |].
  intros E. rewrite E in H. simpl in H. discriminate.
Qed.

Lemma ltb_not_nan_r x y :
  PrimFloat.ltb x y = true -> PrimFloat.is_nan y = false.
Proof.
  unfold PrimFloat.is_nan. rewrite ltb_spec, eqb_spec. unfold SFltb, SFeqb.
  intros H. rewrite SFcompare_refl; [reflexivity |].
  intros E. rewrite E in H. destruct (Prim2SF x); simpl in H; discriminate.
Qed.

Lemma leb_not_nan_l x y :
  PrimFloat.leb x y = true -> PrimFloat.is_nan x = false.
Proof.
  unfold PrimFloat.is_nan. rewrite leb_spec, eqb_spec. unfold SFleb, SFeqb.
  intros H. rewrite SFcompare_refl; [reflexivity |].
  intros E. rewrite E in H. simpl in H. discriminate.
Qed.

Lemma leb_not_ltb x y :
  PrimFloat.leb x y = true -> PrimFloat.ltb y x = false.
Proof.
  rewrite leb_spec, ltb_spec. unfold SFleb, SFltb.
  rewrite (SFcompare_antisym (Prim2SF x) (Prim2SF y)).
  destruct (SFcompare (Prim2SF x) (Prim2SF y)) as [[] |]; simpl; congruence.
Qed.

End FloatOrder.

(** ** The request path *)

Section RequestPath.

Import JS Zod MCP Effects Core.

(** No registration of [createServer] is refused. *)
Lemma createServer_registry config :
  createServer config = inr (registry config).
Proof. reflexivity. Qed.

Lemma dispatch_valid reg w k name raw c args :
  resolve reg k name = Some c ->
  validate (cap_descriptor c) raw = inr args ->
  dispatch reg w k name raw =
  (Invoked k name :: fst (cap_handler c w args),
   match snd (cap_handler c w args) with
   | inl t => ErrorResponse (translate (HandlerFailed t))
   | inr r =>
       match normalize k r with
       | Some envelope => ResponseEnvelope envelope
       | None => ErrorResponse (translate NormalizationFailed)
       end
   end).
Proof.
  intros R V. unfold dispatch. rewrite R, V.
  destruct (cap_handler c w args) as [events outcome]. reflexivity.
Qed.

Lemma dispatch_invalid reg w k name raw c e :
  resolve reg k name = Some c ->
  validate (cap_descriptor c) raw = inl e ->
  dispatch reg w k name raw = ([], ErrorResponse (translate (ValidationFailed e))).
Proof.
  intros R V. unfold dispatch. rewrite R, V. reflexivity.
Qed.

End RequestPath.

(** ** The calculator *)

Section Calculator.

Import JS Zod MCP Effects Core.

#[local] Arguments JSString.includes : simpl never.

(** The validated arguments of the calculator are two numbers and one of
    the four operators, whatever else the request carries. *)
Lemma validate_calculator_inv raw args :
  validate Server.calculator_schema raw = inr args ->
  exists a b operator,
    args = [("a", Num a); ("b", Num b); ("operator", Str operator)] /\
    prop "a" raw = Num a /\ prop "b" raw = Num b /\
    prop "operator" raw = Str operator /\
    PrimFloat.is_nan a = false /\ PrimFloat.is_nan b = false /\
    JSString.includes Server.calculator_operators operator = true.
Proof.
  unfold Server.calculator_schema. simpl. unfold check_field. simpl.
  destruct (prop "a" raw) as [ | | | a | | | ] eqn:Ea; simpl; try discriminate.
  destruct (PrimFloat.is_nan a) eqn:Na; simpl; try discriminate.
  destruct (prop "b" raw) as [ | | | b | | | ] eqn:Eb; simpl; try discriminate.
  destruct (PrimFloat.is_nan b) eqn:Nb; simpl; try discriminate.
  destruct (prop "operator" raw) as [ | | | | operator | | ] eqn:Eo; simpl;
    try discriminate.
  destruct (JSString.includes Server.calculator_operators operator) eqn:Io;
    simpl; try discriminate.
  intros H. injection H as <-.
  exists a, b, operator. repeat split; assumption.
Qed.

Lemma validate_calculator raw a b operator :
  prop "a" raw = Num a -> prop "b" raw = Num b ->
  prop "operator" raw = Str operator ->
  PrimFloat.is_nan a = false -> PrimFloat.is_nan b = false ->
  JSString.includes Server.calculator_operators operator = true ->
  validate Server.calculator_schema raw =
  inr [("a", Num a); ("b", Num b); ("operator", Str operator)].
Proof.
  intros Ea Eb Eo Na Nb Io. unfold Server.calculator_schema. simpl.
  unfold check_field. simpl. rewrite Ea. simpl. rewrite Na. simpl. rewrite Eb. simpl. rewrite Nb. simpl.
  rewrite Eo. simpl. rewrite Io. reflexivity.
Qed.

(** An operator of the enumeration is one of the four literals. *)
Lemma calculator_operator_cases operator :
  JSString.includes Server.calculator_operators operator = true ->
  operator = "+" \/ operator = "-" \/ operator = "*" \/ operator = "/".
Proof.
  unfold JSString.includes, Server.calculator_operators. simpl.
  destruct (String.eqb_spec operator "+"); [auto |].
  destruct (String.eqb_spec operator "-"); [auto |].
  destruct (String.eqb_spec operator "*"); [auto |].
  destruct (String.eqb_spec operator "/"); [auto |].
  simpl. discriminate.
Qed.

(** A request to the calculator whose arguments are valid reaches the
    handler, and its outcome is the outcome of the [switch]. *)
Lemma serve_calculator config w raw a b operator :
  validate Server.calculator_schema raw =
    inr [("a", Num a); ("b", Num b); ("operator", Str operator)] ->
  serve config w Tool "calculator" raw =
  ([Invoked Tool "calculator"],
   match Server.calculate a b operator with
   | inl t => ErrorResponse (translate (HandlerFailed t))
   | inr result =>
       ResponseEnvelope
         (CallToolResult
            [TextContent (Server.calculator_text a b operator result)] None)
   end).
Proof.
  intros V. unfold serve.
  rewrite (dispatch_valid (registry config) w Tool "calculator" raw
             (capability Tool "calculator" Server.calculator_schema
                Server.calculator_handler) _ eq_refl V).
  unfold capability, Server.calculator_handler. simpl.
  unfold Server.calculator, lift, bind, ret.
  destruct (Server.calculate a b operator); reflexivity.
Qed.

Lemma calculate_defined a b operator :
  JSString.includes Server.calculator_operators operator = true ->
  (operator = "/" -> PrimFloat.eqb b 0 = false) ->
  Server.calculate a b operator = inr (Spec.arithmetic operator a b).
Proof.
  intros Io D.
  destruct (calculator_operator_cases operator Io) as [-> | [-> | [-> | ->]]];
    try reflexivity.
  unfold Server.calculate. simpl. rewrite (D eq_refl). reflexivity.
Qed.

(** The handler of the calculator reads nothing of the world: with
    validated arguments its outcome is the same in every world. *)
Lemma calculator_handler_pure w w' raw args :
  validate Server.calculator_schema raw = inr args ->
  Server.calculator_handler w args = Server.calculator_handler w' args.
Proof.
  intros V.
  destruct (validate_calculator_inv raw args V)
    as (a & b & operator & -> & _).
  reflexivity.
Qed.

(** C1: dispatching the calculator with a=6, b=3, operator="/" succeeds
    with the single text block "6 / 3 = 2"; and for all validated
    arguments on which the operation is defined (the divisor of a
    division is not zero) the answer is the single text block
    "<a> <operator> <b> = <result>", where [result] is the result of the
    operator on [a] and [b] in the arithmetic of JavaScript numbers
    (IEEE 754 binary64) and the three numbers are printed as JavaScript
    prints them. *)
Theorem C1_calculator_answer :
  (forall config w,
     serve config w Tool "calculator"
       [("a", Num 6); ("b", Num 3); ("operator", Str "/")] =
     ([Invoked Tool "calculator"],
      ResponseEnvelope (CallToolResult [TextContent "6 / 3 = 2"] None))) /\
  (forall config w raw a b operator,
     validate Server.calculator_schema raw =
       inr [("a", Num a); ("b", Num b); ("operator", Str operator)] ->
     (operator = "/" -> PrimFloat.eqb b 0 = false) ->
     serve config w Tool "calculator" raw =
     ([Invoked Tool "calculator"],
      ResponseEnvelope
        (CallToolResult
           [TextContent
              (JSNumber.toString a ++ " " ++ operator ++ " " ++
               JSNumber.toString b ++ " = " ++
               JSNumber.toString (Spec.arithmetic operator a b))]
           None))).
Proof.
  split.
  - intros config w. vm_compute. reflexivity.
  - intros config w raw a b operator V D.
    rewrite (serve_calculator config w raw a b operator V).
    destruct (validate_calculator_inv raw _ V)
      as (a' & b' & op' & E & _ & _ & _ & _ & _ & Io).
    injection E as <- <- <-.
    rewrite (calculate_defined a b operator Io D). reflexivity.
Qed.

Lemma C1_calculator_answer_witness :
  serve Sample.config Sample.world Tool "calculator"
    [("operator", Str "/"); ("b", Num 2); ("a", Num 7); ("note", Null)] =
  ([Invoked Tool "calculator"],
   ResponseEnvelope (CallToolResult [TextContent "7 / 2 = 3.5"] None)).
Proof.
  exact (proj2 C1_calculator_answer Sample.config Sample.world
           [("operator", Str "/"); ("b", Num 2); ("a", Num 7); ("note", Null)]
           7%float 2%float "/" eq_refl (fun _ => eq_refl)).
Defined.

(** C2: dispatching the calculator with operator "/" and b = 0, for any
    number a, never gives a response envelope: the handler is invoked
    and throws, and the response is the error result made from the
    handler's message, which says that one cannot divide by zero. *)
Theorem C2_division_by_zero config w raw a b :
  prop "a" raw = Num a -> PrimFloat.is_nan a = false ->
  prop "b" raw = Num b -> b = 0%float \/ b = PrimFloat.neg_zero ->
  prop "operator" raw = Str "/" ->
  serve config w Tool "calculator" raw =
    ([Invoked Tool "calculator"],
     ErrorResponse (translate (HandlerFailed (Error "0으로 나눌 수 없습니다")))) /\
  Spec.occurs "0으로 나눌 수 없습니다"
    (message (translate (HandlerFailed (Error "0으로 나눌 수 없습니다")))) /\
  (forall r, snd (serve config w Tool "calculator" raw) <> ResponseEnvelope r).
Proof.
  intros Ea Na Eb Zb Eo.
  assert (Nb : PrimFloat.is_nan b = false) by (destruct Zb as [-> | ->]; reflexivity).
  assert (Cb : Server.calculate a b "/" = inl (Error "0으로 나눌 수 없습니다"))
    by (destruct Zb as [-> | ->]; reflexivity).
  pose proof (validate_calculator raw a b "/" Ea Eb Eo Na Nb eq_refl) as V.
  rewrite (serve_calculator config w raw a b "/" V), Cb.
  split; [reflexivity | split].
  - exists "handler failed: ", "". reflexivity.
  - intros r. simpl. discriminate.
Qed.

Lemma C2_division_by_zero_witness :
  serve Sample.config Sample.world Tool "calculator"
    [("a", Num 1); ("b", Num 0); ("operator", Str "/")] =
  ([Invoked Tool "calculator"],
   ErrorResponse
     {| cause := HandlerFailed (Error "0으로 나눌 수 없습니다");
        message := "handler failed: 0으로 나눌 수 없습니다" |}).
Proof.
  exact (proj1 (C2_division_by_zero Sample.config Sample.world
                  [("a", Num 1); ("b", Num 0); ("operator", Str "/")]
                  1%float 0%float eq_refl eq_refl eq_refl
                  (or_introl eq_refl) eq_refl)).
Defined.

(** C7: two requests to the calculator with the same arguments get the
    same response, events included, whatever the configuration and
    whatever happened to the world in between: the handler keeps no
    state and reads none. *)
Theorem C7_calculator_idempotent config config' w w' raw :
  serve config w Tool "calculator" raw = serve config' w' Tool "calculator" raw.
Proof.
  destruct (validate Server.calculator_schema raw) as [e | args] eqn:V.
  - unfold serve.
    rewrite (dispatch_invalid (registry config) w Tool "calculator" raw
               (capability Tool "calculator" Server.calculator_schema
                  Server.calculator_handler) e eq_refl V).
    rewrite (dispatch_invalid (registry config') w' Tool "calculator" raw
               (capability Tool "calculator" Server.calculator_schema
                  Server.calculator_handler) e eq_refl V).
    reflexivity.
  - destruct (validate_calculator_inv raw args V)
      as (a & b & operator & -> & _).
    rewrite (serve_calculator config w raw a b operator V).
    rewrite (serve_calculator config' w' raw a b operator V).
    reflexivity.
Qed.

(** C10: the operator of the calculator is checked against the
    enumeration "+", "-", "*", "/" before the handler runs, so with
    validated arguments the [switch] takes one of its four arithmetic
    arms, never the default one, and no response carries the error of
    the default arm. *)
Theorem C10_default_arm_unreachable config w raw args :
  validate Server.calculator_schema raw = inr args ->
  exists a b operator,
    args = [("a", Num a); ("b", Num b); ("operator", Str operator)] /\
    In operator Server.calculator_operators /\
    Server.switch_operator operator <> Server.case_default /\
    Server.calculate a b operator <> inl (Error Server.unsupported_operator) /\
    snd (serve config w Tool "calculator" raw) <>
      ErrorResponse (translate (HandlerFailed (Error Server.unsupported_operator))).
Proof.
  intros V.
  destruct (validate_calculator_inv raw args V)
    as (a & b & operator & -> & _ & _ & _ & _ & _ & Io).
  exists a, b, operator. split; [reflexivity |].
  assert (C : Server.calculate a b operator <>
              inl (Error Server.unsupported_operator)).
  { destruct (calculator_operator_cases operator Io) as [-> | [-> | [-> | ->]]];
      try discriminate.
    unfold Server.calculate. simpl.
    destruct (PrimFloat.eqb b 0); discriminate. }
  repeat split.
  - destruct (calculator_operator_cases operator Io) as [-> | [-> | [-> | ->]]];
      simpl; auto.
  - destruct (calculator_operator_cases operator Io) as [-> | [-> | [-> | ->]]];
      discriminate.
  - exact C.
  - rewrite (serve_calculator config w raw a b operator V). simpl.
    destruct (Server.calculate a b operator) as [t |] eqn:E; [| discriminate].
    intros H. apply C. injection H as H. rewrite H. reflexivity.
Qed.

Lemma C10_default_arm_unreachable_witness :
  exists a b operator,
    [("a", Num 1); ("b", Num 2); ("operator", Str "*")] =
    [("a", Num a); ("b", Num b); ("operator", Str operator)] /\
    In operator Server.calculator_operators /\
    Server.switch_operator operator <> Server.case_default /\
    Server.calculate a b operator <> inl (Error Server.unsupported_operator) /\
    snd (serve Sample.config Sample.world Tool "calculator"
           [("operator", Str "*"); ("a", Num 1); ("b", Num 2)]) <>
      ErrorResponse (translate (HandlerFailed (Error Server.unsupported_operator))).
Proof.
  exact (C10_default_arm_unreachable Sample.config Sample.world
           [("operator", Str "*"); ("a", Num 1); ("b", Num 2)]
           [("a", Num 1); ("b", Num 2); ("operator", Str "*")] eq_refl).
Defined.

End Calculator.

(** ** The weather tool: bounds of the coordinates *)

Section Weather.

Import JS Zod MCP Effects Core.

Lemma resolve_get_weather config :
  resolve (registry config) Tool "get_weather" =
  Some (capability Tool "get_weather" Server.get_weather_schema
          Server.get_weather_handler).
Proof. reflexivity. Qed.

(** A latitude outside of [-90, 90] ends the validation at its field. *)
Lemma validate_latitude_out_of_range raw latitude :
  prop "latitude" raw = Num latitude ->
  PrimFloat.ltb latitude (-90) = true \/ PrimFloat.ltb 90 latitude = true ->
  validate Server.get_weather_schema raw =
  inl (OutOfRange "latitude" (Some (-90)%float) (Some 90%float) latitude).
Proof.
  intros E O.
  assert (N : PrimFloat.is_nan latitude = false).
  { destruct O as [O | O];
      [exact (ltb_not_nan_l _ _ O) | exact (ltb_not_nan_r _ _ O)]. }
  unfold Server.get_weather_schema. simpl. unfold check_field. simpl.
  rewrite E. simpl. rewrite N. simpl.
  destruct O as [O | O]; rewrite O; [| rewrite orb_true_r]; reflexivity.
Qed.

(** Coordinates within the closed bounds pass, and the two optional
    fields take their defaults. *)
Lemma validate_coordinates_in_range raw latitude longitude :
  prop "latitude" raw = Num latitude ->
  prop "longitude" raw = Num longitude ->
  prop "timezone" raw = Undefined ->
  prop "forecast_days" raw = Undefined ->
  PrimFloat.leb (-90) latitude = true -> PrimFloat.leb latitude 90 = true ->
  PrimFloat.leb (-180) longitude = true -> PrimFloat.leb longitude 180 = true ->
  validate Server.get_weather_schema raw =
  inr [("latitude", Num latitude); ("longitude", Num longitude);
       ("timezone", Str "auto"); ("forecast_days", Num 3)].
Proof.
  intros Ea Eo Et Ef A1 A2 O1 O2.
  unfold Server.get_weather_schema. simpl. unfold check_field. simpl.
  rewrite Ea, Eo, Et, Ef. simpl.
  rewrite (leb_not_nan_l _ _ A2), (leb_not_nan_l _ _ O2). simpl.
  rewrite (leb_not_ltb _ _ A1), (leb_not_ltb _ _ A2).
  rewrite (leb_not_ltb _ _ O1), (leb_not_ltb _ _ O2).
  reflexivity.
Qed.

(** C3: the schema of get_weather bounds the latitude by [-90, 90] and
    the longitude by [-180, 180]; a request whose latitude is above 90
    or below -90 fails validation with an out-of-range error on the
    latitude and leaves no event (the handler is not invoked, nothing
    is fetched); coordinates within the closed bounds, the bounds
    themselves included, pass validation and the handler is invoked. *)
Theorem C3_latitude_bounds :
  map (fun p => (fst p, kind (snd p))) Server.get_weather_schema =
    [("latitude", KNumber (Some (-90)%float) (Some 90%float));
     ("longitude", KNumber (Some (-180)%float) (Some 180%float));
     ("timezone", KString);
     ("forecast_days", KNumber (Some 1%float) (Some 16%float))] /\
  (forall config w raw latitude,
     prop "latitude" raw = Num latitude ->
     PrimFloat.ltb latitude (-90) = true \/ PrimFloat.ltb 90 latitude = true ->
     serve config w Tool "get_weather" raw =
     ([], ErrorResponse
            (translate
               (ValidationFailed
                  (OutOfRange "latitude" (Some (-90)%float) (Some 90%float)
                     latitude))))) /\
  (forall config w raw latitude longitude,
     prop "latitude" raw = Num latitude ->
     prop "longitude" raw = Num longitude ->
     prop "timezone" raw = Undefined ->
     prop "forecast_days" raw = Undefined ->
     PrimFloat.leb (-90) latitude = true -> PrimFloat.leb latitude 90 = true ->
     PrimFloat.leb (-180) longitude = true -> PrimFloat.leb longitude 180 = true ->
     validate Server.get_weather_schema raw =
       inr [("latitude", Num latitude); ("longitude", Num longitude);
            ("timezone", Str "auto"); ("forecast_days", Num 3)] /\
     exists events,
       fst (serve config w Tool "get_weather" raw) =
       Invoked Tool "get_weather" :: events) /\
  (forall latitude longitude,
     In latitude [(-90)%float; 90%float] ->
     In longitude [(-180)%float; 180%float] ->
     validate Server.get_weather_schema
       [("latitude", Num latitude); ("longitude", Num longitude)] =
     inr [("latitude", Num latitude); ("longitude", Num longitude);
          ("timezone", Str "auto"); ("forecast_days", Num 3)]).
Proof.
  split; [reflexivity |]. split; [| split].
  - intros config w raw latitude E O. unfold serve.
    exact (dispatch_invalid _ w Tool "get_weather" raw _ _
             (resolve_get_weather config)
             (validate_latitude_out_of_range raw latitude E O)).
  - intros config w raw latitude longitude Ea Eo Et Ef A1 A2 O1 O2.
    pose proof (validate_coordinates_in_range raw latitude longitude
                  Ea Eo Et Ef A1 A2 O1 O2) as V.
    split; [exact V |]. unfold serve.
    rewrite (dispatch_valid _ w Tool "get_weather" raw _ _
               (resolve_get_weather config) V).
    eexists. reflexivity.
  - intros latitude longitude [<- | [<- | []]] [<- | [<- | []]]; reflexivity.
Qed.

Lemma C3_latitude_bounds_witness :
  serve Sample.config Sample.world Tool "get_weather"
    [("latitude", Num 95); ("longitude", Num 0)] =
  ([], ErrorResponse
         {| cause := ValidationFailed
                       (OutOfRange "latitude" (Some (-90)%float) (Some 90%float) 95);
            message := "invalid arguments: latitude: out of range" |}).
Proof.
  exact (proj1 (proj2 C3_latitude_bounds) Sample.config Sample.world
           [("latitude", Num 95); ("longitude", Num 0)] 95%float
           eq_refl (or_intror eq_refl)).
Defined.

End Weather.

(** ** The greeting tool: the default language *)

Section Greeting.

Import JS Zod MCP Effects Core.

Lemma resolve_greeting config :
  resolve (registry config) Tool "greeting" =
  Some (capability Tool "greeting" Server.greeting_schema Server.greeting_handler).
Proof. reflexivity. Qed.

(** C4: the language of a greeting defaults to "ko": a request with a
    name and no language is validated to the arguments
    [{name, language: "ko"}] and answered with the Korean greeting for
    that name; a request with language "en" keeps it and is answered
    with the English greeting. *)
Theorem C4_greeting_language config w raw name :
  prop "name" raw = Str name ->
  (prop "language" raw = Undefined ->
   validate Server.greeting_schema raw =
     inr [("name", Str name); ("language", Str "ko")] /\
   serve config w Tool "greeting" raw =
     ([Invoked Tool "greeting"],
      ResponseEnvelope
        (CallToolResult [TextContent ("안녕하세요, " ++ name ++ "님! 😊")] None))) /\
  (prop "language" raw = Str "en" ->
   validate Server.greeting_schema raw =
     inr [("name", Str name); ("language", Str "en")] /\
   serve config w Tool "greeting" raw =
     ([Invoked Tool "greeting"],
      ResponseEnvelope
        (CallToolResult [TextContent ("Hello, " ++ name ++ "! 👋")] None))).
Proof.
  intros En. split; intros El.
  - assert (V : validate Server.greeting_schema raw =
                inr [("name", Str name); ("language", Str "ko")]).
    { unfold Server.greeting_schema. simpl. unfold check_field. simpl.
      rewrite En, El. reflexivity. }
    split; [exact V |]. unfold serve.
    rewrite (dispatch_valid _ w Tool "greeting" raw _ _ (resolve_greeting config) V).
    reflexivity.
  - assert (V : validate Server.greeting_schema raw =
                inr [("name", Str name); ("language", Str "en")]).
    { unfold Server.greeting_schema. simpl. unfold check_field. simpl.
      rewrite En, El. reflexivity. }
    split; [exact V |]. unfold serve.
    rewrite (dispatch_valid _ w Tool "greeting" raw _ _ (resolve_greeting config) V).
    reflexivity.
Qed.

Lemma C4_greeting_language_witness :
  serve Sample.config Sample.world Tool "greeting" [("name", Str "Sam")] =
    ([Invoked Tool "greeting"],
     ResponseEnvelope (CallToolResult [TextContent "안녕하세요, Sam님! 😊"] None)) /\
  serve Sample.config Sample.world Tool "greeting"
    [("name", Str "Sam"); ("language", Str "en")] =
    ([Invoked Tool "greeting"],
     ResponseEnvelope (CallToolResult [TextContent "Hello, Sam! 👋"] None)).
Proof.
  exact (conj
    (proj2 (proj1 (C4_greeting_language Sample.config Sample.world
                     [("name", Str "Sam")] "Sam" eq_refl) eq_refl))
    (proj2 (proj2 (C4_greeting_language Sample.config Sample.world
                     [("name", Str "Sam"); ("language", Str "en")] "Sam" eq_refl)
              eq_refl))).
Defined.

End Greeting.

(** ** The geocode tool: a search without matches *)

Section Geocode.

Import JS Zod MCP Effects Core.

Lemma resolve_geocode config :
  resolve (registry config) Tool "geocode" =
  Some (capability Tool "geocode" Server.geocode_schema Server.geocode_handler).
Proof. reflexivity. Qed.

(** C5: when the upstream search answers a geocode request with an
    empty list of matches, the response is a response envelope, not an
    error result: a single text block that says, with the query between
    double quotes, that the search has no result. *)
Theorem C5_geocode_no_results config w raw query limit response :
  validate Server.geocode_schema raw =
    inr [("query", Str query); ("limit", Num limit)] ->
  fetch w (Server.geocode_request query limit) = inr response ->
  ok response = true ->
  json response = inr (Arr []) ->
  serve config w Tool "geocode" raw =
  ([Invoked Tool "geocode"; Fetched (Server.geocode_request query limit)],
   ResponseEnvelope
     (CallToolResult
        [TextContent (JSString.dquote ++ query ++ JSString.dquote ++
                      "에 대한 검색 결과가 없습니다.")]
        None)).
Proof.
  intros V F O J. unfold serve.
  rewrite (dispatch_valid _ w Tool "geocode" raw _ _ (resolve_geocode config) V).
  unfold capability, Server.geocode_handler. simpl.
  unfold Server.geocode, try_catch, bind, await_fetch.
  rewrite F, O. simpl. unfold lift. rewrite J. reflexivity.
Qed.

Lemma C5_geocode_no_results_witness :
  serve Sample.config Sample.world Tool "geocode"
    [("query", Str ""); ("limit", Num 1)] =
  ([Invoked Tool "geocode"; Fetched (Server.geocode_request "" 1)],
   ResponseEnvelope
     (CallToolResult
        [TextContent (JSString.dquote ++ JSString.dquote ++
                      "에 대한 검색 결과가 없습니다.")]
        None)).
Proof.
  exact (C5_geocode_no_results Sample.config Sample.world
           [("query", Str ""); ("limit", Num 1)] "" 1%float
           {| ok := true; status := 200; statusText := "OK"; json := inr (Arr []) |}
           eq_refl eq_refl eq_refl eq_refl).
Defined.

End Geocode.

(** ** The code review prompt: the shape of its result *)

Section CodeReview.

Import JS Zod MCP Effects Core.

Lemma resolve_code_review config :
  resolve (registry config) Prompt "code_review" =
  Some (capability Prompt "code_review" Server.code_review_schema
          Server.code_review_handler).
Proof. reflexivity. Qed.

(** The validated arguments of the prompt hold the code, a string. *)
Lemma validate_code_review_inv raw args :
  validate Server.code_review_schema raw = inr args ->
  exists code, prop "code" args = Str code.
Proof.
  unfold Server.code_review_schema. simpl. unfold check_field. simpl.
  destruct (prop "code" raw) as [ | | | | code | | ]; simpl; try discriminate.
  destruct (prop "language" raw); simpl; try discriminate;
    destruct (prop "focus_areas" raw); simpl; try discriminate;
    destruct (prop "include_suggestions" raw); simpl; try discriminate;
    intros H; injection H as <-; exists code; reflexivity.
Qed.

(** The prompt always answers with one message of the user. *)
Lemma code_review_message code language focus_areas include_suggestions :
  exists text,
    Server.code_review code language focus_areas include_suggestions =
    ([], inr (GetPromptResult [ {| role := "user"; content := TextContent text |} ])).
Proof. unfold Server.code_review, ret. eexists. reflexivity. Qed.

(** C8: the result of a prompt is a list of messages, not a list of
    content blocks: for every validated input the code_review prompt
    returns a non-empty list of messages, each with the role "user" or
    "assistant" and a content of type "text". *)
Theorem C8_prompt_messages config w raw args :
  validate Server.code_review_schema raw = inr args ->
  exists messages,
    serve config w Prompt "code_review" raw =
      ([Invoked Prompt "code_review"], ResponseEnvelope (GetPromptResult messages)) /\
    messages <> [] /\
    Forall (fun m => (role m = "user" \/ role m = "assistant") /\
                     block_type (content m) = "text") messages.
Proof.
  intros V.
  destruct (validate_code_review_inv raw args V) as [code Ec].
  destruct (code_review_message code
              (Server.optional_string (prop "language" args))
              (Server.optional_string (prop "focus_areas" args))
              (Server.optional_string (prop "include_suggestions" args)))
    as [text Et].
  exists [ {| role := "user"; content := TextContent text |} ].
  split; [| split].
  - unfold serve.
    rewrite (dispatch_valid _ w Prompt "code_review" raw _ _
               (resolve_code_review config) V).
    unfold capability, Server.code_review_handler. simpl cap_handler.
    rewrite Ec, Et. reflexivity.
  - discriminate.
  - constructor; [| constructor]. simpl. auto.
Qed.

Lemma C8_prompt_messages_witness :
  exists messages,
    serve Sample.config Sample.world Prompt "code_review"
      [("code", Str "x = 1"); ("focus_areas", Str "quality, security")] =
      ([Invoked Prompt "code_review"], ResponseEnvelope (GetPromptResult messages)) /\
    messages <> [] /\
    Forall (fun m => (role m = "user" \/ role m = "assistant") /\
                     block_type (content m) = "text") messages.
Proof.
  exact (C8_prompt_messages Sample.config Sample.world
           [("code", Str "x = 1"); ("focus_areas", Str "quality, security")]
           [("code", Str "x = 1"); ("focus_areas", Str "quality, security")]
           eq_refl).
Defined.

End CodeReview.

(** ** Occurrences in a string *)

Section Occurrences.

Import Spec.

Lemma append_assoc (a b c : string) : (a ++ b) ++ c = a ++ (b ++ c).
Proof. induction a as [| x a IH]; simpl; [reflexivity | now rewrite IH]. Qed.

Lemma occurs_app_r needle a b : occurs needle b -> occurs needle (a ++ b).
Proof.
  intros (pre & post & ->). exists (a ++ pre), post.
  now rewrite append_assoc.
Qed.

Lemma occurs_app_l needle a b : occurs needle a -> occurs needle (a ++ b).
Proof.
  intros (pre & post & ->). exists pre, (post ++ b).
  now rewrite !append_assoc.
Qed.

Lemma occurs_cons needle c s : occurs needle s -> occurs needle (String c s).
Proof. exact (occurs_app_r needle (String c "") s). Qed.

Lemma starts_with_sound p s :
  starts_with p s = true -> exists post, s = p ++ post.
Proof.
  revert s. induction p as [| a p IH]; intros s H.
  - exists s. reflexivity.
  - destruct s as [| b s]; [discriminate |]. simpl in H.
    apply andb_prop in H. destruct H as [E H].
    apply Ascii.eqb_eq in E. subst b.
    destruct (IH s H) as [post ->]. exists post. reflexivity.
Qed.

Lemma occurs_in_sound needle s : occurs_in needle s = true -> occurs needle s.
Proof.
  induction s as [| c s IH]; simpl; intros H.
  - rewrite orb_false_r in H.
    destruct (starts_with_sound _ _ H) as [post E]. exists "", post. exact E.
  - apply orb_prop in H. destruct H as [H | H].
    + destruct (starts_with_sound _ _ H) as [post E]. exists "", post. exact E.
    + apply occurs_cons. exact (IH H).
Qed.

End Occurrences.

(** ** [JSON.stringify] on an object *)

Section Stringify.

Import JS JSString Spec.

Lemma serialize_Obj indent props :
  serialize indent (Obj props) =
  match rendered (indent ++ "  ") props with
  | [] => "{}"
  | _ :: _ =>
      "{" ++ String (ascii_of_nat 10) (indent ++ "  ") ++
      join ("," ++ String (ascii_of_nat 10) (indent ++ "  "))
        (rendered (indent ++ "  ") props) ++
      String (ascii_of_nat 10) indent ++ "}"
  end.
Proof. reflexivity. Qed.

Lemma occurs_join needle sep x l :
  In x l -> occurs needle x -> occurs needle (join sep l).
Proof.
  induction l as [| y l IH]; intros I O; [destruct I |].
  destruct I as [-> | I].
  - destruct l; simpl; [exact O | now apply occurs_app_l].
  - destruct l as [| z l]; [destruct I |].
    change (join sep (y :: z :: l)) with (y ++ sep ++ join sep (z :: l)).
    apply occurs_app_r, occurs_app_r. exact (IH I O).
Qed.

Lemma rendered_In inner k v props :
  In (k, v) props -> v <> Undefined ->
  In (quote k ++ ": " ++ serialize inner v) (rendered inner props).
Proof.
  induction props as [| [k' v'] props IH]; intros I D; [destruct I |].
  destruct I as [E | I].
  - injection E as -> ->. destruct v; try (left; reflexivity). congruence.
  - specialize (IH I D). destruct v'; try (right; exact IH). exact IH.
Qed.

(** What occurs in a rendered property occurs in the rendered object. *)
Lemma occurs_in_object needle indent props entry :
  In entry (rendered (indent ++ "  ") props) ->
  occurs needle entry ->
  occurs needle (serialize indent (Obj props)).
Proof.
  intros I O. rewrite serialize_Obj.
  destruct (rendered (indent ++ "  ") props) as [| e l] eqn:E; [destruct I |].
  apply occurs_app_r.
  change (String (ascii_of_nat 10) (indent ++ "  ") ++
          join ("," ++ String (ascii_of_nat 10) (indent ++ "  ")) (e :: l) ++
          String (ascii_of_nat 10) indent ++ "}")
    with (String (ascii_of_nat 10)
            ((indent ++ "  ") ++
             join ("," ++ String (ascii_of_nat 10) (indent ++ "  ")) (e :: l) ++
             String (ascii_of_nat 10) indent ++ "}")).
  apply occurs_cons, occurs_app_r, occurs_app_l.
  exact (occurs_join _ _ _ _ I O).
Qed.

Lemma occurs_key needle indent k v props :
  In (k, v) props -> v <> Undefined ->
  occurs needle (quote k) ->
  occurs needle (serialize indent (Obj props)).
Proof.
  intros I D O.
  apply (occurs_in_object needle indent props _ (rendered_In _ k v props I D)).
  now apply occurs_app_l.
Qed.

Lemma occurs_value needle indent k v props :
  In (k, v) props -> v <> Undefined ->
  occurs needle (serialize (indent ++ "  ") v) ->
  occurs needle (serialize indent (Obj props)).
Proof.
  intros I D O.
  apply (occurs_in_object needle indent props _ (rendered_In _ k v props I D)).
  now apply occurs_app_r, occurs_app_r.
Qed.

End Stringify.

(** ** The resource [server://info] *)

Section ServerInfo.

Import JS Zod MCP Effects Core.

Lemma resolve_server_info config :
  resolve (registry config) Resource "server://info" =
  Some (capability Resource "server://info" [] Server.server_info).
Proof. reflexivity. Qed.

(** The names of the tools, between quotes, occur in the rendered list
    of tools; the same for the resource and for the prompt. *)
Lemma tool_names_rendered name :
  In name ["greeting"; "calculator"; "get_time"; "generate_image"; "geocode";
           "get_weather"] ->
  Spec.occurs (quote name) (serialize "  " (Arr Server.availableTools)).
Proof.
  intros I. apply occurs_in_sound.
  repeat (destruct I as [<- | I]; [vm_compute; reflexivity |]).
  destruct I.
Qed.

Lemma kind_key_in_text w k :
  Spec.occurs (quote (Spec.kind_key k)) (JSON_stringify (Server.serverInfo w)).
Proof.
  unfold JSON_stringify, Server.serverInfo.
  destruct k; simpl Spec.kind_key.
  - eapply occurs_key;
      [right; right; left; reflexivity | discriminate |].
    apply occurs_in_sound. vm_compute. reflexivity.
  - eapply occurs_key;
      [right; right; right; left; reflexivity | discriminate |].
    apply occurs_in_sound. vm_compute. reflexivity.
  - eapply occurs_key;
      [right; right; right; right; left; reflexivity | discriminate |].
    apply occurs_in_sound. vm_compute. reflexivity.
Qed.

Lemma tool_name_in_text w name :
  In name ["greeting"; "calculator"; "get_time"; "generate_image"; "geocode";
           "get_weather"] ->
  Spec.occurs (quote name) (JSON_stringify (Server.serverInfo w)).
Proof.
  intros I. unfold JSON_stringify, Server.serverInfo.
  eapply occurs_value; [right; right; left; reflexivity | discriminate |].
  exact (tool_names_rendered name I).
Qed.

Lemma resource_name_in_text w :
  Spec.occurs (quote "server://info") (JSON_stringify (Server.serverInfo w)).
Proof.
  unfold JSON_stringify, Server.serverInfo.
  eapply occurs_value;
    [right; right; right; left; reflexivity | discriminate |].
  apply occurs_in_sound. vm_compute. reflexivity.
Qed.

Lemma prompt_name_in_text w :
  Spec.occurs (quote "code_review") (JSON_stringify (Server.serverInfo w)).
Proof.
  unfold JSON_stringify, Server.serverInfo.
  eapply occurs_value;
    [right; right; right; right; left; reflexivity | discriminate |].
  apply occurs_in_sound. vm_compute. reflexivity.
Qed.

(** C9: reading the resource "server://info" succeeds, whatever the
    arguments, with one text entry: the rendering of the server
    description.  Every capability that [createServer] registers is
    listed in that description under the key of its kind, and its name
    and that key occur, between quotes, in the text. *)
Theorem C9_server_info config w raw :
  serve config w Resource "server://info" raw =
    ([Invoked Resource "server://info"],
     ResponseEnvelope
       (ReadResourceResult
          [ {| uri := "server://info";
               mimeType := "application/json";
               text := JSON_stringify (Server.serverInfo w) |} ])) /\
  forall c, In c (registry config) ->
    Spec.listed (Server.serverInfo w) (cap_kind c) (cap_name c) = true /\
    Spec.occurs (quote (Spec.kind_key (cap_kind c)))
      (JSON_stringify (Server.serverInfo w)) /\
    Spec.occurs (quote (cap_name c)) (JSON_stringify (Server.serverInfo w)).
Proof.
  split.
  - unfold serve.
    rewrite (dispatch_valid _ w Resource "server://info" raw _ []
               (resolve_server_info config) eq_refl).
    reflexivity.
  - intros c I. split; [| split; [apply kind_key_in_text |]].
    + simpl in I.
      repeat (destruct I as [E | I]; [subst c; reflexivity |]).
      destruct I.
    + simpl in I.
      destruct I as [E | [E | [E | [E | [E | [E | [E | [E | []]]]]]]]];
        subst c; simpl cap_name;
        first [ apply tool_name_in_text; simpl; tauto
              | apply resource_name_in_text
              | apply prompt_name_in_text ].
Qed.

End ServerInfo.

(** ** No handler returns an empty result *)

Section NonEmpty.

Import JS Zod MCP Effects Core Spec.

Lemma nonempty_ret r : (1 <= entries r)%nat -> nonempty (ret r).
Proof. intros H r' E. injection E as <-. exact H. Qed.

Lemma nonempty_throw t : nonempty (throw t).
Proof. intros r E. discriminate. Qed.

Lemma nonempty_bind {A} (m : Async A) (k : A -> Async Result) :
  (forall a, nonempty (k a)) -> nonempty (bind m k).
Proof.
  intros H r. unfold bind. destruct m as [tr [t | a]]; simpl; [discriminate |].
  specialize (H a). destruct (k a) as [tr' o]. exact (H r).
Qed.

Lemma nonempty_try_catch (body : Async Result) (handler : Thrown -> Async Result) :
  nonempty body -> (forall t, nonempty (handler t)) ->
  nonempty (try_catch body handler).
Proof.
  intros Hb Hh r. unfold try_catch. destruct body as [tr [t | a]]; simpl.
  - specialize (Hh t). destruct (handler t) as [tr' o]. exact (Hh r).
  - exact (Hb r).
Qed.

(** One step through the body of a handler. *)
Ltac nonempty_step :=
  cbv beta zeta;
  match goal with
  | |- nonempty (ret _) => apply nonempty_ret; simpl; lia
  | |- nonempty (throw _) => apply nonempty_throw
  | |- nonempty (bind _ _) => apply nonempty_bind; intros ?
  | |- nonempty (try_catch _ _) => apply nonempty_try_catch; [| intros ?]
  | |- nonempty (if ?b then _ else _) => destruct b
  | |- nonempty (match ?x with _ => _ end) => destruct x
  end.

Lemma greeting_nonempty w args : nonempty (Server.greeting_handler w args).
Proof. unfold Server.greeting_handler, Server.greeting. repeat nonempty_step. Qed.

Lemma calculator_nonempty w args : nonempty (Server.calculator_handler w args).
Proof.
  unfold Server.calculator_handler, Server.calculator. repeat nonempty_step.
Qed.

Lemma get_time_nonempty w args : nonempty (Server.get_time_handler w args).
Proof. unfold Server.get_time_handler, Server.get_time. repeat nonempty_step. Qed.

Lemma generate_image_nonempty config w args :
  nonempty (Server.generate_image_handler config w args).
Proof.
  unfold Server.generate_image_handler, Server.generate_image.
  repeat nonempty_step.
Qed.

Lemma geocode_nonempty w args : nonempty (Server.geocode_handler w args).
Proof. unfold Server.geocode_handler, Server.geocode. repeat nonempty_step. Qed.

Lemma get_weather_nonempty w args : nonempty (Server.get_weather_handler w args).
Proof.
  unfold Server.get_weather_handler, Server.get_weather. repeat nonempty_step.
Qed.

Lemma server_info_nonempty w args : nonempty (Server.server_info w args).
Proof. unfold Server.server_info. repeat nonempty_step. Qed.

Lemma code_review_nonempty w args : nonempty (Server.code_review_handler w args).
Proof.
  unfold Server.code_review_handler, Server.code_review. repeat nonempty_step.
Qed.

(** C6: whenever the handler of a registered capability returns a
    result, the result has at least one entry: no handler returns an
    empty list of content blocks (of contents for the resource, of
    messages for the prompt); hence every response envelope that a
    request gets has at least one entry. *)
Theorem C6_nonempty_envelope config :
  (forall c w args r,
     In c (registry config) ->
     snd (cap_handler c w args) = inr r -> (1 <= entries r)%nat) /\
  (forall w k name raw r,
     snd (serve config w k name raw) = ResponseEnvelope r ->
     (1 <= entries r)%nat).
Proof.
  assert (H : forall c w args r,
             In c (registry config) ->
             snd (cap_handler c w args) = inr r -> (1 <= entries r)%nat).
  { intros c w args r I. simpl in I.
    destruct I as [E | [E | [E | [E | [E | [E | [E | [E | []]]]]]]]];
      subst c; simpl cap_handler.
    - apply greeting_nonempty.
    - apply calculator_nonempty.
    - apply get_time_nonempty.
    - apply generate_image_nonempty.
    - apply geocode_nonempty.
    - apply get_weather_nonempty.
    - apply server_info_nonempty.
    - apply code_review_nonempty. }
  split; [exact H |].
  intros w k name raw r. unfold serve, dispatch.
  destruct (resolve (registry config) k name) as [c |] eqn:R; [| discriminate].
  destruct (validate (cap_descriptor c) raw) as [e | args]; [discriminate |].
  pose proof (H c w args) as Hc.
  destruct (cap_handler c w args) as [events [t | r']]; simpl; [discriminate |].
  unfold normalize.
  assert (Hr : (1 <= entries r')%nat).
  { apply Hc; [| reflexivity]. unfold resolve in R.
    apply find_some in R. exact (proj1 R). }
  destruct k, r'; simpl; try discriminate; intros E; injection E as <-; exact Hr.
Qed.

Lemma C6_nonempty_envelope_witness :
  (1 <= entries (CallToolResult [ImageContent "UE5H" "image/png"]
                   (Some {| audience := ["user"]; priority := 0.9 |})))%nat.
Proof.
  exact (proj2 (C6_nonempty_envelope Sample.config) Sample.world Tool
           "generate_image" [("prompt", Str "a cat")] _ eq_refl).
Defined.

End NonEmpty.

(** ** The time tool *)

Section GetTime.

Import JS JSString Zod MCP Effects Core Parts.

Lemma get_time_quiet w timeZone : fst (Server.get_time w timeZone) = [].
Proof.
  unfold Server.get_time, try_catch, bind, lift, throw, ret.
  destruct (Intl_DateTimeFormat_koKR w timeZone) as [e1 | format];
    [reflexivity |].
  destruct (Date_toLocaleString_enUS w "UTC" (Date_now w)) as [e2 | su];
    [reflexivity |].
  destruct (Date_toLocaleString_enUS w timeZone (Date_now w)) as [e3 | st];
    reflexivity.
Qed.

(** X1: the time tool asks nothing of an upstream service, and whatever
    fails inside it (the formatter refusing the time zone, or the
    conversion of the date) is reported as the same error, the
    invalid-time-zone message with the time zone in it. *)
Theorem X1_get_time_failures_masked w timeZone :
  fst (Server.get_time w timeZone) = [] /\
  (forall t, snd (Server.get_time w timeZone) = inl t ->
             t = Error (invalid_time_zone timeZone)) /\
  (forall e, Intl_DateTimeFormat_koKR w timeZone = inl e ->
             snd (Server.get_time w timeZone) =
             inl (Error (invalid_time_zone timeZone))) /\
  (forall e, Date_toLocaleString_enUS w timeZone (Date_now w) = inl e ->
             snd (Server.get_time w timeZone) =
             inl (Error (invalid_time_zone timeZone))).
Proof.
  unfold Server.get_time, try_catch, bind, lift, throw, ret, invalid_time_zone.
  destruct (Intl_DateTimeFormat_koKR w timeZone) as [e1 | format];
    [| destruct (Date_toLocaleString_enUS w "UTC" (Date_now w)) as [e2 | su];
       [| destruct (Date_toLocaleString_enUS w timeZone (Date_now w))
            as [e3 | st]]];
    repeat split; simpl; intros; try discriminate; try reflexivity;
    match goal with
    | H : inl _ = inl _ |- _ => injection H as <-; reflexivity
    end.
Qed.

Lemma X1_get_time_failures_masked_witness :
  snd (Server.get_time no_such_zone "Mars/Olympus") =
  inl (Error ("유효하지 않은 타임존입니다: Mars/Olympus" ++
              ". IANA 타임존 형식(예: America/New_York)을 사용해주세요.")).
Proof.
  exact (proj1 (proj2 (proj2 (X1_get_time_failures_masked no_such_zone
                                "Mars/Olympus")))
           (Error "Invalid time zone specified") eq_refl).
Defined.

(** When the runtime answers, [get_time] returns the rendering of
    [timeInfo]. *)
Lemma get_time_success w timeZone format utcString tzString :
  Intl_DateTimeFormat_koKR w timeZone = inr format ->
  Date_toLocaleString_enUS w "UTC" (Date_now w) = inr utcString ->
  Date_toLocaleString_enUS w timeZone (Date_now w) = inr tzString ->
  Server.get_time w timeZone =
  ([], inr (CallToolResult
              [TextContent
                 (JSON_stringify
                    (time_info timeZone (format (Date_now w))
                       (Date_toISOString w (Date_now w)) (Date_now w)
                       (Date_parse w tzString - Date_parse w utcString)%float))]
              None)).
Proof.
  intros F U T. unfold Server.get_time, try_catch, bind, lift, ret.
  rewrite F, U, T. reflexivity.
Qed.

Lemma toString_offset_number n :
  In n offset_numbers -> JSNumber.toString (of_Z n) = JSNumber.digits_of_Z n.
Proof.
  assert (A : forallb (fun n => String.eqb (JSNumber.toString (of_Z n))
                                  (JSNumber.digits_of_Z n))
                offset_numbers = true) by (vm_compute; reflexivity).
  intros I. apply String.eqb_eq.
  exact (proj1 (forallb_forall _ _) A n I).
Qed.

Lemma existsb_Z_In z l : existsb (Z.eqb z) l = true -> In z l.
Proof.
  intros H. apply existsb_exists in H. destruct H as (x & I & E).
  apply Z.eqb_eq in E. now subst x.
Qed.

Lemma offset_string_quarter_hours q :
  In q quarter_hours ->
  offset_string (of_Z (q * 900000)) = written_offset (q * 15).
Proof.
  assert (A : forallb quarter_checked quarter_hours = true)
    by (vm_compute; reflexivity).
  intros I. pose proof (proj1 (forallb_forall _ _) A q I) as C.
  unfold quarter_checked in C.
  repeat (apply andb_prop in C; destruct C as [C ?]).
  unfold offset_string, written_offset.
  apply FloatAxioms.Leibniz.eqb_spec in C.
  match goal with H : PrimFloat.Leibniz.eqb _ _ = true |- _ =>
    apply FloatAxioms.Leibniz.eqb_spec in H; rewrite H end.
  rewrite C.
  match goal with H : String.eqb _ _ = true |- _ =>
    apply String.eqb_eq in H; rewrite H end.
  rewrite !toString_offset_number by (apply existsb_Z_In; assumption).
  reflexivity.
Qed.

(** X2: when the two parsed dates of the time tool differ by a whole
    number of quarters of an hour between -12:00 and +14:00, the
    "offset" of the answer is that difference written as UTC, a sign,
    two digits of hours, a colon and two digits of minutes. *)
Theorem X2_get_time_offset_quarter_hours w timeZone format utcString tzString q :
  Intl_DateTimeFormat_koKR w timeZone = inr format ->
  Date_toLocaleString_enUS w "UTC" (Date_now w) = inr utcString ->
  Date_toLocaleString_enUS w timeZone (Date_now w) = inr tzString ->
  (-48 <= q <= 56)%Z ->
  (Date_parse w tzString - Date_parse w utcString)%float = of_Z (q * 900000) ->
  Server.get_time w timeZone =
  ([], inr (CallToolResult
              [TextContent
                 (JSON_stringify
                    (Obj [ ("timezone", Str timeZone);
                           ("localTime", Str (format (Date_now w)));
                           ("utcTime", Str (Date_toISOString w (Date_now w)));
                           ("offset", Str (written_offset (q * 15)));
                           ("timestamp", Num (Date_now w));
                           ("date", Server.index
                                      (split_on " " (format (Date_now w))) 0);
                           ("time", Server.index
                                      (split_on " " (format (Date_now w))) 1) ]))]
              None)).
Proof.
  intros F U T R D.
  rewrite (get_time_success w timeZone format utcString tzString F U T), D.
  unfold time_info. rewrite offset_string_quarter_hours; [reflexivity |].
  unfold quarter_hours. apply in_map_iff.
  exists (Z.to_nat (q + 48)). split; [lia |]. apply in_seq. lia.
Qed.

End GetTime.

(** ** The time tool: the date and the time *)

Section GetTimeWords.

Import JS JSString Zod MCP Effects Core Parts.

Lemma split_on_word a rest :
  no_space a = true ->
  split_on " " (a ++ String " " rest) = a :: split_on " " rest.
Proof.
  induction a as [| c a IH]; intros N; [reflexivity |].
  unfold no_space in N. simpl in N. apply andb_prop in N. destruct N as [C N].
  simpl. destruct (Ascii.eqb c " "); [discriminate |].
  rewrite (IH N). reflexivity.
Qed.

(** X3: the "date" and the "time" of the answer of the time tool are
    the first and the second word of the formatted local time, cut at
    the spaces: a formatted time of three or more words, such as the
    Korean "2024. 01. 15. 23:30:45", gives the date "2024." and the time
    "01.". *)
Theorem X3_get_time_date_and_time w timeZone format utcString tzString a b rest :
  Intl_DateTimeFormat_koKR w timeZone = inr format ->
  Date_toLocaleString_enUS w "UTC" (Date_now w) = inr utcString ->
  Date_toLocaleString_enUS w timeZone (Date_now w) = inr tzString ->
  no_space a = true -> no_space b = true ->
  format (Date_now w) = a ++ " " ++ b ++ " " ++ rest ->
  Server.get_time w timeZone =
  ([], inr (CallToolResult
              [TextContent
                 (JSON_stringify
                    (Obj [ ("timezone", Str timeZone);
                           ("localTime", Str (a ++ " " ++ b ++ " " ++ rest));
                           ("utcTime", Str (Date_toISOString w (Date_now w)));
                           ("offset",
                            Str (offset_string
                                   (Date_parse w tzString -
                                    Date_parse w utcString)%float));
                           ("timestamp", Num (Date_now w));
                           ("date", Str a);
                           ("time", Str b) ]))]
              None)).
Proof.
  intros F U T Na Nb E.
  rewrite (get_time_success w timeZone format utcString tzString F U T).
  unfold time_info. rewrite E.
  change (a ++ " " ++ b ++ " " ++ rest)
    with (a ++ String " " (b ++ String " " rest)).
  rewrite (split_on_word a _ Na), (split_on_word b _ Nb). reflexivity.
Qed.

Lemma X3_get_time_date_and_time_witness :
  Server.get_time seoul_clock "Asia/Seoul" =
  ([], inr (CallToolResult
              [TextContent
                 (JSON_stringify
                    (Obj [ ("timezone", Str "Asia/Seoul");
                           ("localTime", Str "2024. 01. 15. 23:30:45");
                           ("utcTime", Str "2024-01-15T14:30:45.000Z");
                           ("offset", Str "UTC+09:00");
                           ("timestamp", Num 1705329045000);
                           ("date", Str "2024.");
                           ("time", Str "01.") ]))]
              None)).
Proof.
  exact (X3_get_time_date_and_time seoul_clock "Asia/Seoul"
           (fun _ => "2024. 01. 15. 23:30:45")
           "1/15/2024, 2:30:45 PM" "1/15/2024, 11:30:45 PM"
           "2024." "01." "15. 23:30:45"
           eq_refl eq_refl eq_refl eq_refl eq_refl eq_refl).
Defined.

Lemma X2_get_time_offset_quarter_hours_witness :
  Server.get_time seoul_clock "Asia/Seoul" =
  ([], inr (CallToolResult
              [TextContent
                 (JSON_stringify
                    (Obj [ ("timezone", Str "Asia/Seoul");
                           ("localTime", Str "2024. 01. 15. 23:30:45");
                           ("utcTime", Str "2024-01-15T14:30:45.000Z");
                           ("offset", Str "UTC+09:00");
                           ("timestamp", Num 1705329045000);
                           ("date", Str "2024.");
                           ("time", Str "01.") ]))]
              None)).
Proof.
  exact (X2_get_time_offset_quarter_hours seoul_clock "Asia/Seoul"
           (fun _ => "2024. 01. 15. 23:30:45")
           "1/15/2024, 2:30:45 PM" "1/15/2024, 11:30:45 PM" 36%Z
           eq_refl eq_refl eq_refl ltac:(lia) eq_refl).
Defined.

End GetTimeWords.

(** ** The image tool *)

Section GenerateImage.

Import JS JSString Zod MCP Effects Core Parts.

(** X4: without a token in the configuration (none, or an empty one)
    the image tool fails with the token-required message behind the
    image-failure prefix, and asks nothing of the inference service. *)
Theorem X4_generate_image_requires_token config w prompt :
  Server.hfToken config = None \/ Server.hfToken config = Some "" ->
  Server.generate_image config w prompt =
  ([], inl (Error (image_failed token_required))).
Proof.
  intros [E | E]; unfold Server.generate_image; rewrite E; reflexivity.
Qed.

Lemma X4_generate_image_requires_token_witness :
  Server.generate_image {| Server.hfToken := None |} Sample.world "a cat" =
  ([], inl (Error (image_failed token_required))).
Proof.
  exact (X4_generate_image_requires_token {| Server.hfToken := None |}
           Sample.world "a cat" (or_introl eq_refl)).
Defined.

Lemma generate_image_run config w prompt token :
  Server.hfToken config = Some token -> token <> "" ->
  fst (Server.generate_image config w prompt) =
    [ImageRequested token (image_request prompt)] /\
  snd (Server.generate_image config w prompt) =
    match textToImage w token (image_request prompt) with
    | inr bytes =>
        inr (CallToolResult
               [ImageContent (Buffer.toString_base64 bytes) "image/png"]
               (Some {| audience := ["user"]; priority := 0.9 |}))
    | inl t => inl (Error (image_failed (message_or "알 수 없는 오류" t)))
    end.
Proof.
  intros E N. unfold Server.generate_image. rewrite E.
  destruct (String.eqb_spec token ""); [contradiction |].
  unfold try_catch, bind, await_textToImage, ret, throw, image_request.
  destruct (textToImage w token _); split; reflexivity.
Qed.

(** X5: with a token the image tool sends exactly one request, with
    that token, the prompt as it is, the provider "auto", the model
    FLUX.1-schnell and five inference steps; bytes come back as one
    image block of type image/png with their base64 text and the
    annotations (audience user, priority 0.9); a rejection comes back as
    an error with the image-failure prefix, before the message of an
    Error and before "unknown error" for anything else. *)
Theorem X5_generate_image_with_token config w prompt token :
  Server.hfToken config = Some token -> token <> "" ->
  fst (Server.generate_image config w prompt) =
    [ImageRequested token (image_request prompt)] /\
  snd (Server.generate_image config w prompt) =
    match textToImage w token (image_request prompt) with
    | inr bytes =>
        inr (CallToolResult
               [ImageContent (Buffer.toString_base64 bytes) "image/png"]
               (Some {| audience := ["user"]; priority := 0.9 |}))
    | inl t => inl (Error (image_failed (message_or "알 수 없는 오류" t)))
    end.
Proof. exact (generate_image_run config w prompt token). Qed.

Lemma X5_generate_image_with_token_witness :
  fst (Server.generate_image Sample.config Sample.world "a cat") =
    [ImageRequested "hf_token" (image_request "a cat")] /\
  snd (Server.generate_image Sample.config Sample.world "a cat") =
    inr (CallToolResult [ImageContent "UE5H" "image/png"]
           (Some {| audience := ["user"]; priority := 0.9 |})).
Proof.
  exact (X5_generate_image_with_token Sample.config Sample.world "a cat" "hf_token"
           eq_refl ltac:(discriminate)).
Defined.

End GenerateImage.

(** ** The geocode tool *)

Section GeocodeMore.

Import JS JSString Zod MCP Effects Core Parts.

Lemma getM_defined w r key :
  defined r = true -> Server.getM w r key = ([], inr (member w r key)).
Proof.
  intros D. unfold Server.getM, lift, member.
  destruct r; try discriminate; simpl;
    try reflexivity; destruct (String.eqb key "length"); reflexivity.
Qed.

Lemma geocode_format_defined w r :
  defined r = true ->
  Server.geocode_format w r = ([], inr (geocode_entry w r)).
Proof.
  intros D. unfold Server.geocode_format, bind.
  rewrite !(getM_defined w r _ D). reflexivity.
Qed.

Lemma geocode_format_undefined w r :
  defined r = false ->
  Server.geocode_format w r = ([], inl (type_error w "display_name")).
Proof. destruct r; try discriminate; reflexivity. Qed.

Lemma mapM_geocode_format_defined w items :
  forallb defined items = true ->
  Server.mapM (Server.geocode_format w) items =
  ([], inr (map (geocode_entry w) items)).
Proof.
  induction items as [| r items IH]; intros D; [reflexivity |].
  simpl in D. apply andb_prop in D. destruct D as [Dr D].
  simpl. rewrite (geocode_format_defined w r Dr). unfold bind at 1.
  rewrite (IH D). reflexivity.
Qed.

Lemma mapM_geocode_format_undefined w items :
  forallb defined items = false ->
  Server.mapM (Server.geocode_format w) items =
  ([], inl (type_error w "display_name")).
Proof.
  induction items as [| r items IH]; intros D; [discriminate |].
  simpl in D. simpl. destruct (defined r) eqn:Dr.
  - rewrite (geocode_format_defined w r Dr). unfold bind at 1.
    rewrite (IH D). reflexivity.
  - rewrite (geocode_format_undefined w r Dr). reflexivity.
Qed.

Lemma mapM_geocode_format_quiet w items :
  fst (Server.mapM (Server.geocode_format w) items) = [].
Proof.
  destruct (forallb defined items) eqn:D.
  - rewrite (mapM_geocode_format_defined w items D). reflexivity.
  - rewrite (mapM_geocode_format_undefined w items D). reflexivity.
Qed.

(** What [geocode] does once the upstream has answered [results]. *)
Lemma geocode_answered w query limit response results :
  fetch w (Server.geocode_request query limit) = inr response ->
  ok response = true ->
  json response = inr results ->
  Server.geocode w query limit =
  ([Fetched (Server.geocode_request query limit)],
   if negb (truthy results)
   then inr (CallToolResult [TextContent (Server.geocode_no_results query)] None)
   else
     match Member.get w results "length" with
     | inl t => inl (Error (geocode_failed (message_or unknown_error t)))
     | inr len =>
         if Member.is_zero len
         then inr (CallToolResult
                     [TextContent (Server.geocode_no_results query)] None)
         else
           match results with
           | Arr items =>
               if forallb defined items
               then inr (CallToolResult
                           [TextContent
                              (JSON_stringify (Arr (map (geocode_entry w) items)))]
                           None)
               else inl (Error (geocode_failed
                                  (message_or unknown_error
                                     (type_error w "display_name"))))
           | _ => inl (Error (geocode_failed
                                (message_or unknown_error (type_error w "map"))))
           end
     end).
Proof.
  intros F O J.
  unfold Server.geocode, try_catch, bind at 1, await_fetch.
  rewrite F, O. simpl negb. cbv iota.
  unfold bind at 1, lift. rewrite J.
  destruct (truthy results) eqn:T; simpl negb; cbv iota; [| reflexivity].
  unfold bind at 1, Server.getM, lift.
  destruct (Member.get w results "length") as [t | len]; [reflexivity |].
  destruct (Member.is_zero len); [reflexivity |].
  destruct results; try reflexivity.
  destruct (forallb defined items) eqn:D.
  - unfold bind. rewrite (mapM_geocode_format_defined w items D). reflexivity.
  - unfold bind. rewrite (mapM_geocode_format_undefined w items D). reflexivity.
Qed.

Lemma geocode_events w query limit :
  fst (Server.geocode w query limit) =
  [Fetched (Server.geocode_request query limit)].
Proof.
  destruct (fetch w (Server.geocode_request query limit)) as [t | response] eqn:F.
  - unfold Server.geocode, try_catch, bind, await_fetch. rewrite F. reflexivity.
  - destruct (ok response) eqn:O.
    + destruct (json response) as [t | results] eqn:J.
      * unfold Server.geocode, try_catch, bind at 1, await_fetch.
        rewrite F, O. simpl negb. cbv iota. unfold bind, lift. rewrite J.
        reflexivity.
      * rewrite (geocode_answered w query limit response results F O J).
        reflexivity.
    + unfold Server.geocode, try_catch, bind, await_fetch. rewrite F, O.
      reflexivity.
Qed.

(** X6: the geocode tool sends exactly one request, whatever the
    outcome: to the Nominatim search, with the parameters q (the query
    as it is), format=jsonv2, limit (the number as JavaScript prints it)
    and addressdetails=1, in this order, and the two headers. *)
Theorem X6_geocode_one_request w query limit :
  fst (Server.geocode w query limit) =
    [Fetched (Server.geocode_request query limit)] /\
  Server.geocode_request query limit =
    {| url := "https://nominatim.openstreetmap.org/search";
       searchParams := [ ("q", query); ("format", "jsonv2");
                         ("limit", JSNumber.toString limit);
                         ("addressdetails", "1") ];
       headers := [ ("User-Agent", "typescript-mcp-server/1.0.0");
                    ("Accept-Language", "ko,en") ] |}.
Proof. split; [apply geocode_events | reflexivity]. Qed.

(** X7: every error that the geocode tool throws is an Error whose
    message starts with the geocoding-failure prefix. *)
Theorem X7_geocode_failures_wrapped w query limit t :
  snd (Server.geocode w query limit) = inl t ->
  exists reason, t = Error (geocode_failed reason).
Proof.
  unfold Server.geocode.
  match goal with |- context [try_catch ?b _] => destruct b as [tr [e | r]] end.
  - simpl. intros H. injection H as <-. eexists. reflexivity.
  - simpl. discriminate.
Qed.

(** X8: how the geocode tool reports a failing upstream: a rejected
    request and an unreadable body give the prefix and the message of
    the rejection (or "unknown error"); a status that is not a success
    gives the prefix, "Nominatim API 오류: ", the status and the status
    text. *)
Theorem X8_geocode_upstream_failure w query limit :
  (forall t, fetch w (Server.geocode_request query limit) = inl t ->
     snd (Server.geocode w query limit) =
     inl (Error (geocode_failed (message_or unknown_error t)))) /\
  (forall response,
     fetch w (Server.geocode_request query limit) = inr response ->
     ok response = false ->
     snd (Server.geocode w query limit) =
     inl (Error (geocode_failed
                   ("Nominatim API 오류: " ++ JSNumber.toString (status response)
                    ++ " " ++ statusText response)))) /\
  (forall response t,
     fetch w (Server.geocode_request query limit) = inr response ->
     ok response = true ->
     json response = inl t ->
     snd (Server.geocode w query limit) =
     inl (Error (geocode_failed (message_or unknown_error t)))).
Proof.
  repeat split.
  - intros t F. unfold Server.geocode, try_catch, bind, await_fetch.
    rewrite F. reflexivity.
  - intros response F O. unfold Server.geocode, try_catch, bind, await_fetch.
    rewrite F, O. reflexivity.
  - intros response t F O J.
    unfold Server.geocode, try_catch, bind at 1, await_fetch.
    rewrite F, O. simpl negb. cbv iota. unfold bind, lift. rewrite J.
    reflexivity.
Qed.

Lemma X7_geocode_failures_wrapped_witness :
  exists reason,
    Error (geocode_failed "Nominatim API 오류: 503 Service Unavailable") =
    Error (geocode_failed reason).
Proof.
  exact (X7_geocode_failures_wrapped (refusing 503 "Service Unavailable")
           "Seoul" 1%float _ eq_refl).
Defined.

Lemma X8_geocode_upstream_failure_witness :
  snd (Server.geocode (refusing 503 "Service Unavailable") "Seoul" 1) =
  inl (Error (geocode_failed "Nominatim API 오류: 503 Service Unavailable")).
Proof.
  exact (proj1 (proj2 (X8_geocode_upstream_failure
                         (refusing 503 "Service Unavailable") "Seoul" 1%float))
           {| ok := false; status := 503; statusText := "Service Unavailable";
              json := inr Null |} eq_refl eq_refl).
Defined.

(** X9: the geocode tool answers "no results" not only for an empty
    list: also when the body is falsy (null, false, 0, the empty string)
    and when its "length" is zero, as for the object {length: 0}. *)
Theorem X9_geocode_no_matches w query limit response results :
  fetch w (Server.geocode_request query limit) = inr response ->
  ok response = true ->
  json response = inr results ->
  truthy results = false \/
  (exists len, Member.get w results "length" = inr len /\
               Member.is_zero len = true) ->
  snd (Server.geocode w query limit) =
  inr (CallToolResult
         [TextContent (dquote ++ query ++ dquote ++
                       "에 대한 검색 결과가 없습니다.")]
         None).
Proof.
  intros F O J H.
  rewrite (geocode_answered w query limit response results F O J). simpl snd.
  destruct H as [T | (len & L & Z)].
  - rewrite T. reflexivity.
  - rewrite L, Z. destruct (truthy results); reflexivity.
Qed.

Lemma X9_geocode_no_matches_witness :
  snd (Server.geocode (answering (Obj [("length", Num 0)])) "Seoul" 5) =
  inr (CallToolResult
         [TextContent (dquote ++ "Seoul" ++ dquote ++
                       "에 대한 검색 결과가 없습니다.")]
         None).
Proof.
  exact (X9_geocode_no_matches (answering (Obj [("length", Num 0)])) "Seoul"
           5%float
           {| ok := true; status := 200; statusText := "OK";
              json := inr (Obj [("length", Num 0)]) |}
           (Obj [("length", Num 0)]) eq_refl eq_refl eq_refl
           (or_intror (ex_intro _ (Num 0) (conj eq_refl eq_refl)))).
Defined.

(** The length of a list of one to forty matches is a number other
    than zero. *)
Lemma length_not_zero {A} (l : list A) :
  (1 <= List.length l <= 40)%nat ->
  Member.is_zero
    (Num (PrimFloat.of_uint63 (Uint63.of_Z (Z.of_nat (List.length l))))) = false.
Proof.
  assert (T : forallb (fun n => negb (Member.is_zero
                         (Num (PrimFloat.of_uint63 (Uint63.of_Z (Z.of_nat n))))))
                (seq 1 40) = true) by (vm_compute; reflexivity).
  intros B. apply negb_true_iff.
  apply (proj1 (forallb_forall _ _) T). apply in_seq. lia.
Qed.

(** X10: for a list of one to forty matches, the geocode tool answers
    with the rendering of one entry per match, in the same order, if no
    match is null; a single null match makes the whole call fail with
    the wrapped type error. *)
Theorem X10_geocode_matches w query limit response items :
  fetch w (Server.geocode_request query limit) = inr response ->
  ok response = true ->
  json response = inr (Arr items) ->
  (1 <= List.length items <= 40)%nat ->
  snd (Server.geocode w query limit) =
  if forallb defined items
  then inr (CallToolResult
              [TextContent (JSON_stringify (Arr (map (geocode_entry w) items)))]
              None)
  else inl (Error (geocode_failed
                     (message_or unknown_error (type_error w "display_name")))).
Proof.
  intros F O J B.
  rewrite (geocode_answered w query limit response (Arr items) F O J).
  change (Member.get w (Arr items) "length")
    with (@inr Thrown value
            (Num (PrimFloat.of_uint63
                    (Uint63.of_Z (Z.of_nat (List.length items)))))).
  cbv beta iota. rewrite (length_not_zero items B). reflexivity.
Qed.

Lemma X10_geocode_matches_witness :
  snd (Server.geocode
         (answering (Arr [Obj [ ("display_name", Str "Seoul");
                                ("lat", Str "37.5"); ("lon", Str "127") ]]))
         "Seoul" 1) =
  inr (CallToolResult
         [TextContent
            (JSON_stringify
               (Arr [Obj [ ("display_name", Str "Seoul");
                           ("latitude", Num 37.5);
                           ("longitude", Num 127);
                           ("coordinates", Obj [ ("lat", Num 37.5);
                                                 ("lon", Num 127) ]);
                           ("address", Null);
                           ("boundingbox", Null) ]]))]
         None).
Proof.
  exact (X10_geocode_matches
           (answering (Arr [Obj [ ("display_name", Str "Seoul");
                                  ("lat", Str "37.5"); ("lon", Str "127") ]]))
           "Seoul" 1%float
           {| ok := true; status := 200; statusText := "OK";
              json := inr (Arr [Obj [ ("display_name", Str "Seoul");
                                      ("lat", Str "37.5"); ("lon", Str "127") ]]) |}
           [Obj [ ("display_name", Str "Seoul");
                  ("lat", Str "37.5"); ("lon", Str "127") ]]
           eq_refl eq_refl eq_refl ltac:(simpl; lia)).
Defined.

(** X11: when the upstream answers a geocode request with an object
    whose "length" is not zero (an error object, say), the tool fails
    with the wrapped type error of calling "map"; it never succeeds. *)
Theorem X11_geocode_answer_not_a_list w query limit response o :
  fetch w (Server.geocode_request query limit) = inr response ->
  ok response = true ->
  json response = inr (Obj o) ->
  Member.is_zero (prop "length" o) = false ->
  snd (Server.geocode w query limit) =
  inl (Error (geocode_failed (message_or unknown_error (type_error w "map")))).
Proof.
  intros F O J Z.
  rewrite (geocode_answered w query limit response (Obj o) F O J).
  simpl. rewrite Z. reflexivity.
Qed.

Lemma X11_geocode_answer_not_a_list_witness :
  snd (Server.geocode (answering (Obj [("error", Str "Unable to geocode")]))
         "Seoul" 1) =
  inl (Error (geocode_failed "Cannot read properties of undefined: map")).
Proof.
  exact (X11_geocode_answer_not_a_list
           (answering (Obj [("error", Str "Unable to geocode")])) "Seoul" 1%float
           {| ok := true; status := 200; statusText := "OK";
              json := inr (Obj [("error", Str "Unable to geocode")]) |}
           [("error", Str "Unable to geocode")]
           eq_refl eq_refl eq_refl eq_refl).
Defined.

(** X12: the limit of a geocode request defaults to 1 (the request
    that is sent carries limit 1), and a limit below 1 or above 40 is
    refused by validation with an out-of-range error on "limit", before
    anything is sent. *)
Theorem X12_geocode_limit :
  (forall config w raw query,
     prop "query" raw = Str query -> prop "limit" raw = Undefined ->
     fst (serve config w Tool "geocode" raw) =
     [Invoked Tool "geocode"; Fetched (Server.geocode_request query 1)]) /\
  (forall config w raw query limit,
     prop "query" raw = Str query -> prop "limit" raw = Num limit ->
     PrimFloat.ltb limit 1 = true \/ PrimFloat.ltb 40 limit = true ->
     serve config w Tool "geocode" raw =
     ([], ErrorResponse
            (translate
               (ValidationFailed
                  (OutOfRange "limit" (Some 1%float) (Some 40%float) limit))))).
Proof.
  split.
  - intros config w raw query Eq El.
    assert (V : validate Server.geocode_schema raw =
                inr [("query", Str query); ("limit", Num 1)]).
    { unfold Server.geocode_schema. simpl. unfold check_field. simpl.
      rewrite Eq, El. reflexivity. }
    unfold serve.
    rewrite (dispatch_valid _ w Tool "geocode" raw _ _ (resolve_geocode config) V).
    unfold capability, Server.geocode_handler. simpl fst. simpl cap_handler.
    change (prop "query" [("query", Str query); ("limit", Num 1)])
      with (Str query).
    change (prop "limit" [("query", Str query); ("limit", Num 1)])
      with (Num 1).
    cbv iota beta. rewrite (geocode_events w query 1). reflexivity.
  - intros config w raw query limit Eq El O.
    assert (N : PrimFloat.is_nan limit = false).
    { destruct O as [O | O];
        [exact (ltb_not_nan_l _ _ O) | exact (ltb_not_nan_r _ _ O)]. }
    assert (V : validate Server.geocode_schema raw =
                inl (OutOfRange "limit" (Some 1%float) (Some 40%float) limit)).
    { unfold Server.geocode_schema. simpl. unfold check_field. simpl.
      rewrite Eq, El. simpl. rewrite N. simpl.
      destruct O as [O | O]; rewrite O; [| rewrite orb_true_r]; reflexivity. }
    unfold serve.
    exact (dispatch_invalid _ w Tool "geocode" raw _ _ (resolve_geocode config) V).
Qed.

Lemma X12_geocode_limit_witness :
  serve Sample.config Sample.world Tool "geocode"
    [("query", Str "Seoul"); ("limit", Num 41)] =
  ([], ErrorResponse
         {| cause := ValidationFailed
                       (OutOfRange "limit" (Some 1%float) (Some 40%float) 41);
            message := "invalid arguments: limit: out of range" |}).
Proof.
  exact (proj2 X12_geocode_limit Sample.config Sample.world
           [("query", Str "Seoul"); ("limit", Num 41)] "Seoul" 41%float
           eq_refl eq_refl (or_intror eq_refl)).
Defined.

End GeocodeMore.

(** ** The weather tool *)

Section WeatherMore.

Import JS JSString Zod MCP Effects Core Parts.

Lemma truthy_defined v : truthy v = true -> defined v = true.
Proof. destruct v; simpl; congruence. Qed.

Lemma bind_pure {A B} (a : A) (k : A -> Async B) :
  bind ([], inr a) k = k a.
Proof. unfold bind. destruct (k a). reflexivity. Qed.

(** What [get_weather] does once the upstream has answered [data]. *)
Lemma get_weather_answered w latitude longitude timezone forecast_days
    response data :
  fetch w (Server.get_weather_request latitude longitude timezone forecast_days)
    = inr response ->
  ok response = true ->
  json response = inr data ->
  Server.get_weather w latitude longitude timezone forecast_days =
  ([Fetched (Server.get_weather_request latitude longitude timezone
               forecast_days)],
   if defined data then
     if truthy (member w data "error")
     then inl (Error (weather_failed
                        (toString (or_else (member w data "reason")
                                     (Str unknown_error)))))
     else inr (CallToolResult
                 [TextContent (JSON_stringify (weather_report w data))] None)
   else inl (type_error w "error")).
Proof.
  intros F O J.
  unfold Server.get_weather, bind at 1, await_fetch.
  rewrite F, O. simpl negb. cbv iota.
  unfold bind at 1, lift. rewrite J.
  destruct (defined data) eqn:D.
  - rewrite (getM_defined w data "error" D), bind_pure.
    destruct (truthy (member w data "error")) eqn:E.
    + rewrite (getM_defined w data "reason" D), bind_pure. reflexivity.
    + repeat (rewrite (getM_defined w data _ D), bind_pure).
      unfold weather_report.
      destruct (truthy (member w data "current")) eqn:C.
      * repeat (rewrite (getM_defined w (member w data "current") _
                           (truthy_defined _ C)), bind_pure).
        unfold ret at 1. rewrite bind_pure.
        rewrite (getM_defined w data _ D), bind_pure.
        destruct (truthy (member w data "daily")) eqn:Y.
        -- repeat (rewrite (getM_defined w (member w data "daily") _
                              (truthy_defined _ Y)), bind_pure).
           unfold ret at 1. rewrite bind_pure.
           repeat (rewrite (getM_defined w data _ D), bind_pure). reflexivity.
        -- unfold ret at 1. rewrite bind_pure.
           repeat (rewrite (getM_defined w data _ D), bind_pure). reflexivity.
      * unfold ret at 1. rewrite bind_pure.
        rewrite (getM_defined w data _ D), bind_pure.
        destruct (truthy (member w data "daily")) eqn:Y.
        -- repeat (rewrite (getM_defined w (member w data "daily") _
                              (truthy_defined _ Y)), bind_pure).
           unfold ret at 1. rewrite bind_pure.
           repeat (rewrite (getM_defined w data _ D), bind_pure). reflexivity.
        -- unfold ret at 1. rewrite bind_pure.
           repeat (rewrite (getM_defined w data _ D), bind_pure). reflexivity.
  - destruct data; try discriminate; reflexivity.
Qed.

Lemma get_weather_events w latitude longitude timezone forecast_days :
  fst (Server.get_weather w latitude longitude timezone forecast_days) =
  [Fetched (Server.get_weather_request latitude longitude timezone
              forecast_days)].
Proof.
  destruct (fetch w (Server.get_weather_request latitude longitude timezone
                       forecast_days)) as [t | response] eqn:F.
  - unfold Server.get_weather, bind, await_fetch. rewrite F. reflexivity.
  - destruct (ok response) eqn:O.
    + destruct (json response) as [t | data] eqn:J.
      * unfold Server.get_weather, bind at 1, await_fetch.
        rewrite F, O. simpl negb. cbv iota. unfold bind, lift. rewrite J.
        reflexivity.
      * rewrite (get_weather_answered w latitude longitude timezone
                   forecast_days response data F O J).
        reflexivity.
    + unfold Server.get_weather, bind, await_fetch. rewrite F, O. reflexivity.
Qed.

(** X13: the weather tool sends exactly one request, whatever the
    outcome: to the Open-Meteo forecast, with the parameters latitude,
    longitude, timezone, forecast_days, current and daily, in this
    order, and the User-Agent header. *)
Theorem X13_get_weather_one_request w latitude longitude timezone forecast_days :
  fst (Server.get_weather w latitude longitude timezone forecast_days) =
    [Fetched (Server.get_weather_request latitude longitude timezone
                forecast_days)] /\
  Server.get_weather_request latitude longitude timezone forecast_days =
    {| url := "https://api.open-meteo.com/v1/forecast";
       searchParams :=
         [ ("latitude", JSNumber.toString latitude);
           ("longitude", JSNumber.toString longitude);
           ("timezone", timezone);
           ("forecast_days", JSNumber.toString forecast_days);
           ("current",
            "temperature_2m,relative_humidity_2m,weather_code,wind_speed_10m");
           ("daily",
            "temperature_2m_max,temperature_2m_min,precipitation_sum,weather_code") ];
       headers := [ ("User-Agent", "typescript-mcp-server/1.0.0") ] |}.
Proof. split; [apply get_weather_events | reflexivity]. Qed.

(** X14: the weather tool does not wrap what it did not throw itself:
    a rejected request or an unreadable body is thrown on as it is, a
    null body gives the type error of reading "error"; a status that is
    not a success gives "Open-Meteo API 오류: " and the status. *)
Theorem X14_get_weather_upstream_failure w latitude longitude timezone
    forecast_days :
  (forall t,
     fetch w (Server.get_weather_request latitude longitude timezone
                forecast_days) = inl t ->
     snd (Server.get_weather w latitude longitude timezone forecast_days) =
     inl t) /\
  (forall response,
     fetch w (Server.get_weather_request latitude longitude timezone
                forecast_days) = inr response ->
     ok response = false ->
     snd (Server.get_weather w latitude longitude timezone forecast_days) =
     inl (Error (weather_failed (JSNumber.toString (status response))))) /\
  (forall response t,
     fetch w (Server.get_weather_request latitude longitude timezone
                forecast_days) = inr response ->
     ok response = true ->
     json response = inl t ->
     snd (Server.get_weather w latitude longitude timezone forecast_days) =
     inl t) /\
  (forall response,
     fetch w (Server.get_weather_request latitude longitude timezone
                forecast_days) = inr response ->
     ok response = true ->
     json response = inr Null ->
     snd (Server.get_weather w latitude longitude timezone forecast_days) =
     inl (type_error w "error")).
Proof.
  repeat split.
  - intros t F. unfold Server.get_weather, bind, await_fetch.
    rewrite F. reflexivity.
  - intros response F O. unfold Server.get_weather, bind, await_fetch.
    rewrite F, O. reflexivity.
  - intros response t F O J.
    unfold Server.get_weather, bind at 1, await_fetch.
    rewrite F, O. simpl negb. cbv iota. unfold bind, lift. rewrite J.
    reflexivity.
  - intros response F O J.
    rewrite (get_weather_answered w latitude longitude timezone forecast_days
               response Null F O J).
    reflexivity.
Qed.

Lemma X14_get_weather_upstream_failure_witness :
  snd (Server.get_weather (refusing 429 "Too Many Requests") 37.5 127 "auto" 3) =
  inl (Error "Open-Meteo API 오류: 429").
Proof.
  exact (proj1 (proj2 (X14_get_weather_upstream_failure
                         (refusing 429 "Too Many Requests")
                         37.5%float 127%float "auto" 3%float))
           {| ok := false; status := 429; statusText := "Too Many Requests";
              json := inr Null |} eq_refl eq_refl).
Defined.

(** X15: when the body of the answer has a truthy "error", the weather
    tool fails with "Open-Meteo API 오류: " and the "reason" of the
    body, or "unknown error" when the reason is missing or falsy. *)
Theorem X15_get_weather_reported_error w latitude longitude timezone forecast_days
    response data :
  fetch w (Server.get_weather_request latitude longitude timezone forecast_days)
    = inr response ->
  ok response = true ->
  json response = inr data ->
  defined data = true ->
  truthy (member w data "error") = true ->
  snd (Server.get_weather w latitude longitude timezone forecast_days) =
  inl (Error ("Open-Meteo API 오류: " ++
              (if truthy (member w data "reason")
               then toString (member w data "reason")
               else "알 수 없는 오류"))).
Proof.
  intros F O J D E.
  rewrite (get_weather_answered w latitude longitude timezone forecast_days
             response data F O J).
  simpl snd. rewrite D, E. unfold or_else, weather_failed, unknown_error.
  destruct (truthy (member w data "reason")); reflexivity.
Qed.

Lemma X15_get_weather_reported_error_witness :
  snd (Server.get_weather
         (answering (Obj [ ("error", Bool true);
                           ("reason", Str "Latitude must be in range of -90 to 90") ]))
         37.5 127 "auto" 3) =
  inl (Error "Open-Meteo API 오류: Latitude must be in range of -90 to 90").
Proof.
  exact (X15_get_weather_reported_error
           (answering (Obj [ ("error", Bool true);
                             ("reason", Str "Latitude must be in range of -90 to 90") ]))
           37.5%float 127%float "auto" 3%float
           {| ok := true; status := 200; statusText := "OK";
              json := inr (Obj [ ("error", Bool true);
                                 ("reason", Str "Latitude must be in range of -90 to 90") ]) |}
           (Obj [ ("error", Bool true);
                  ("reason", Str "Latitude must be in range of -90 to 90") ])
           eq_refl eq_refl eq_refl eq_refl eq_refl).
Defined.

(** X16: for every body other than null whose "error" is falsy, the
    weather tool succeeds with the rendering of its report; the current
    and the daily part are null when the body has none, and the units
    default to °C, %, km/h and mm. *)
Theorem X16_get_weather_report w latitude longitude timezone forecast_days
    response data :
  fetch w (Server.get_weather_request latitude longitude timezone forecast_days)
    = inr response ->
  ok response = true ->
  json response = inr data ->
  defined data = true ->
  truthy (member w data "error") = false ->
  snd (Server.get_weather w latitude longitude timezone forecast_days) =
  inr (CallToolResult
         [TextContent (JSON_stringify (weather_report w data))] None).
Proof.
  intros F O J D E.
  rewrite (get_weather_answered w latitude longitude timezone forecast_days
             response data F O J).
  simpl snd. rewrite D, E. reflexivity.
Qed.

Lemma X16_get_weather_report_witness :
  snd (Server.get_weather
         (answering (Obj [ ("latitude", Num 37.5);
                           ("current", Obj [("temperature_2m", Num 21)]) ]))
         37.5 127 "auto" 3) =
  inr (CallToolResult
         [TextContent
            (JSON_stringify
               (Obj [ ("location", Obj [("latitude", Num 37.5)]);
                      ("current", Obj [("temperature", Num 21)]);
                      ("daily", Null);
                      ("units", Obj [ ("temperature", Str "°C");
                                      ("humidity", Str "%");
                                      ("wind_speed", Str "km/h");
                                      ("precipitation", Str "mm") ]) ]))]
         None).
Proof.
  exact (X16_get_weather_report
           (answering (Obj [ ("latitude", Num 37.5);
                             ("current", Obj [("temperature_2m", Num 21)]) ]))
           37.5%float 127%float "auto" 3%float
           {| ok := true; status := 200; statusText := "OK";
              json := inr (Obj [ ("latitude", Num 37.5);
                                 ("current", Obj [("temperature_2m", Num 21)]) ]) |}
           (Obj [ ("latitude", Num 37.5);
                  ("current", Obj [("temperature_2m", Num 21)]) ])
           eq_refl eq_refl eq_refl eq_refl eq_refl).
Defined.



End WeatherMore.

(** ** The code review prompt *)

Section CodeReviewMore.

Import JS JSString Zod MCP Effects Core Parts.

(** The prompt is the head, the fenced code and the footer. *)
Lemma code_review_text code language focus_areas include_suggestions :
  Server.code_review code language focus_areas include_suggestions =
  ([], inr (GetPromptResult
              [ {| role := "user";
                   content := TextContent
                     (review_text code language focus_areas
                        include_suggestions) |} ])).
Proof.
  unfold Server.code_review, ret. cbv zeta.
  match goal with
  | |- (_, inr (GetPromptResult
                  [ {| role := _; content := TextContent ?a |} ])) = _ =>
      assert (E : a = review_text code language focus_areas
                        include_suggestions);
        [| rewrite E; reflexivity]
  end.
  unfold review_text, review_head, fenced, review_footer.
  rewrite !append_assoc. reflexivity.
Qed.

Lemma code_review_sections code language focus_areas include_suggestions :
  Server.code_review code language focus_areas include_suggestions =
  prompt_of
    (review_head (final_language language)
       (map snd
          (filter (fun p => wanted (final_focus_areas focus_areas) (fst p))
             review_sections)) ++
     fenced (final_language language) code ++
     review_footer (final_include_suggestions include_suggestions)).
Proof.
  rewrite code_review_text. unfold prompt_of, review_text, sections_for.
  simpl filter.
  destruct (wanted (final_focus_areas focus_areas) "quality");
    destruct (wanted (final_focus_areas focus_areas) "performance");
    destruct (wanted (final_focus_areas focus_areas) "security");
    destruct (wanted (final_focus_areas focus_areas) "maintainability");
    destruct (wanted (final_focus_areas focus_areas) "best_practices");
    reflexivity.
Qed.

(** X18: the sections of the review prompt are those of the areas that
    are asked for (all of them when "all" is asked for), in the fixed
    order quality, performance, security, maintainability, best
    practices, each at most once. *)
Theorem X18_review_sections_in_order code language focus_areas include_suggestions :
  Server.code_review code language focus_areas include_suggestions =
  prompt_of
    (review_head (final_language language)
       (map snd
          (filter (fun p => wanted (final_focus_areas focus_areas) (fst p))
             review_sections)) ++
     fenced (final_language language) code ++
     review_footer (final_include_suggestions include_suggestions)).
Proof.
  exact (code_review_sections code language focus_areas include_suggestions).
Qed.

(** X19: the review prompt depends on the focus areas only through
    which of the six known words they contain after trimming: order,
    repetition, white space and unknown words make no difference. *)
Theorem X19_review_focus_membership code language include_suggestions f1 f2 :
  (forall word, In word focus_words ->
     includes (final_focus_areas f1) word = includes (final_focus_areas f2) word) ->
  Server.code_review code language f1 include_suggestions =
  Server.code_review code language f2 include_suggestions.
Proof.
  intros H. rewrite !code_review_sections.
  assert (W : forall area, In area focus_words ->
                wanted (final_focus_areas f1) area =
                wanted (final_focus_areas f2) area).
  { intros area I. unfold wanted.
    rewrite (H "all" (or_introl eq_refl)), (H area I). reflexivity. }
  simpl filter.
  rewrite (W "quality"), (W "performance"), (W "security"),
    (W "maintainability"), (W "best_practices");
    [reflexivity | simpl; tauto ..].
Qed.

Lemma X19_review_focus_membership_witness :
  Server.code_review "x = 1" None (Some "security,quality") None =
  Server.code_review "x = 1" None
    (Some " quality , security,quality,tests") None.
Proof.
  refine (X19_review_focus_membership "x = 1" None None (Some "security,quality")
            (Some " quality , security,quality,tests") _).
  intros word I. simpl in I.
  repeat (destruct I as [<- | I]; [reflexivity |]). destruct I.
Defined.

(** X20: when the focus areas contain none of the six known words
    (the words are compared as they are, so "Quality" is not "quality"),
    the prompt is still returned, with no section at all. *)
Theorem X20_review_unknown_areas code language focus_areas include_suggestions :
  forallb (fun word => negb (includes (final_focus_areas focus_areas) word))
    focus_words = true ->
  Server.code_review code language focus_areas include_suggestions =
  prompt_of
    (review_head (final_language language) [] ++
     fenced (final_language language) code ++
     review_footer (final_include_suggestions include_suggestions)).
Proof.
  intros H. rewrite code_review_sections.
  simpl in H. repeat (apply andb_prop in H; destruct H as [? H]).
  repeat match goal with
         | E : negb _ = true |- _ => apply negb_true_iff in E
         end.
  unfold wanted. simpl filter.
  repeat match goal with
         | E : includes _ _ = false |- _ => rewrite E; clear E
         end.
  reflexivity.
Qed.

Lemma X20_review_unknown_areas_witness :
  Server.code_review "x = 1" None (Some "Quality, SECURITY") (Some "no") =
  prompt_of
    ("다음 코드를 상세히 분석하고 리뷰해주세요." ++ nl ++
     "**코드 언어**: 자동 감지" ++ nl ++ nl ++ nl ++ nl ++
     "---" ++ nl ++ nl ++ "**리뷰할 코드:**" ++ nl ++ nl ++
     "```" ++ nl ++ "x = 1" ++ nl ++ "```").
Proof.
  exact (X20_review_unknown_areas "x = 1" None (Some "Quality, SECURITY")
           (Some "no") eq_refl).
Defined.

(** X21: leaving the three optional arguments of the review prompt
    out gives the same prompt as the defaults that the server
    description documents ("auto", "all", "true"); an empty focus_areas
    or include_suggestions counts as absent, and include_suggestions is
    compared with "true" without regard to case. *)
Theorem X21_review_defaults code language focus_areas include_suggestions :
  Server.code_review code None None None =
    Server.code_review code (Some "auto") (Some "all") (Some "true") /\
  Server.code_review code language (Some "") include_suggestions =
    Server.code_review code language None include_suggestions /\
  Server.code_review code language focus_areas (Some "") =
    Server.code_review code language focus_areas None /\
  (forall s, toLowerCase s = "true" ->
     Server.code_review code language focus_areas (Some s) =
     Server.code_review code language focus_areas None).
Proof.
  repeat split; try reflexivity.
  intros s E. rewrite !code_review_text. unfold review_text.
  unfold final_include_suggestions. rewrite E.
  destruct (String.eqb s ""); reflexivity.
Qed.

(** X22: the code is put into the review prompt as it is, between a
    line of three backquotes followed by the language (nothing for
    "auto" or no language) and a line of three backquotes. *)
Theorem X22_review_code_verbatim code language focus_areas include_suggestions :
  exists before after,
    Server.code_review code language focus_areas include_suggestions =
    prompt_of
      (before ++
       ("```" ++
        (match language with
         | Some l => if String.eqb l "auto" then "" else l
         | None => ""
         end) ++ nl ++ code ++ nl ++ "```") ++
       after).
Proof.
  rewrite code_review_text. unfold review_text.
  exists (review_head (final_language language)
            (sections_for (final_focus_areas focus_areas))),
    (review_footer (final_include_suggestions include_suggestions)).
  unfold fenced.
  destruct language as [l |]; simpl final_language;
    [destruct (String.eqb l "auto") |]; reflexivity.
Qed.

End CodeReviewMore.

(** ** The server description and the registrations *)

Section Documentation.

Import JS JSString Zod MCP Effects Core Parts.

(** X23: the tools that the server description lists are the
    registered tools, in the order of registration, and the parameters
    it documents for each (type, values, description, required, default,
    min, max) are those of the schema the tool is registered with. *)
Theorem X23_server_info_documents_tools config :
  map (fun t => (field "name" t, field "parameters" t)) Server.availableTools =
  map documentation (of_kind Tool (registry config)).
Proof. reflexivity. Qed.

(** X24: the numbers of tools, resources and prompts in the server
    description are the numbers of registered capabilities of each
    kind. *)
Theorem X24_server_info_counts config w :
  field "capabilities" (Server.serverInfo w) =
  Obj [ ("tools", Num (Server.length_of (of_kind Tool (registry config))));
        ("resources",
         Num (Server.length_of (of_kind Resource (registry config))));
        ("prompts", Num (Server.length_of (of_kind Prompt (registry config)))) ].
Proof. reflexivity. Qed.

(** X25: the server description documents the prompt code_review with
    the names, types and required flags of its schema; the defaults it
    documents ("auto", "all", "true") are not defaults of the schema,
    which declares none. *)
Theorem X25_server_info_documents_prompt w :
  exists entry parameters,
    field "prompts" (Server.serverInfo w) = Arr [entry] /\
    field "name" entry = Str "code_review" /\
    field "parameters" entry = Obj parameters /\
    map type_and_required parameters =
      map (fun p => (fst p, Str (kind_word (kind (snd p))),
                     Bool (required (snd p))))
        Server.code_review_schema /\
    map (fun p => field "default" (snd p)) parameters =
      [Undefined; Str "auto"; Str "all"; Str "true"] /\
    map (fun p => default (snd p)) Server.code_review_schema =
      [None; None; None; None].
Proof.
  unfold Server.serverInfo. simpl field.
  eexists. eexists. split; [reflexivity |].
  split; [reflexivity |]. split; [reflexivity |]. repeat split.
Qed.

End Documentation.

(** ** Which handlers reach out *)

Section Quiet.

Import JS JSString Zod MCP Effects Core Parts.

#[local] Arguments JSString.includes : simpl never.

Lemma generate_image_events config w prompt :
  (List.length (fst (Server.generate_image config w prompt)) <= 1)%nat.
Proof.
  unfold Server.generate_image.
  destruct (Server.hfToken config) as [token |]; [| simpl; lia].
  destruct (String.eqb token ""); [simpl; lia |].
  unfold try_catch, bind, await_textToImage, ret, throw.
  destruct (textToImage w token _); simpl; lia.
Qed.

(** X26: a handler asks at most one thing of an upstream service per
    invocation, and only generate_image, geocode and get_weather ask
    anything: the other handlers cause no event. *)
Theorem X26_upstream_calls config c w args :
  In c (registry config) ->
  (List.length (fst (cap_handler c w args)) <= 1)%nat /\
  (~ In (cap_name c) calling_tools -> fst (cap_handler c w args) = []).
Proof.
  intros I. simpl in I.
  destruct I as [E | [E | [E | [E | [E | [E | [E | [E | []]]]]]]]];
    subst c; simpl cap_handler; simpl cap_name.
  - assert (Q : fst (Server.greeting_handler w args) = []).
    { unfold Server.greeting_handler.
      destruct (prop "name" args); try reflexivity.
      destruct (prop "language" args); reflexivity. }
    rewrite Q. split; [simpl; lia | reflexivity].
  - assert (Q : fst (Server.calculator_handler w args) = []).
    { unfold Server.calculator_handler.
      destruct (prop "a" args); try reflexivity.
      destruct (prop "b" args); try reflexivity.
      destruct (prop "operator" args); try reflexivity.
      unfold Server.calculator, bind, lift.
      destruct (Server.calculate _ _ _); reflexivity. }
    rewrite Q. split; [simpl; lia | reflexivity].
  - assert (Q : fst (Server.get_time_handler w args) = []).
    { unfold Server.get_time_handler.
      destruct (prop "timeZone" args) as [ | | | | timeZone | | ];
        try reflexivity.
      exact (get_time_quiet w timeZone). }
    rewrite Q. split; [simpl; lia | reflexivity].
  - split; [| intros N; exfalso; apply N; simpl; tauto].
    unfold Server.generate_image_handler.
    destruct (prop "prompt" args); try (simpl; lia).
    apply generate_image_events.
  - split; [| intros N; exfalso; apply N; simpl; tauto].
    unfold Server.geocode_handler.
    destruct (prop "query" args) as [ | | | | query | | ]; try (simpl; lia).
    destruct (prop "limit" args) as [ | | | limit | | | ]; try (simpl; lia).
    rewrite (geocode_events w query limit). simpl; lia.
  - split; [| intros N; exfalso; apply N; simpl; tauto].
    unfold Server.get_weather_handler.
    destruct (prop "latitude" args) as [ | | | latitude | | | ];
      try (simpl; lia).
    destruct (prop "longitude" args) as [ | | | longitude | | | ];
      try (simpl; lia).
    destruct (prop "timezone" args) as [ | | | | timezone | | ];
      try (simpl; lia).
    destruct (prop "forecast_days" args) as [ | | | days | | | ];
      try (simpl; lia).
    rewrite (get_weather_events w latitude longitude timezone days).
    simpl; lia.
  - split; [simpl; lia | reflexivity].
  - assert (Q : fst (Server.code_review_handler w args) = []).
    { unfold Server.code_review_handler.
      destruct (prop "code" args); reflexivity. }
    rewrite Q. split; [simpl; lia | reflexivity].
Qed.

Lemma X26_upstream_calls_witness :
  (List.length
     (fst (Server.geocode_handler Sample.world
             [("query", Str "Seoul"); ("limit", Num 1)])) <= 1)%nat /\
  (~ In "geocode" calling_tools ->
   fst (Server.geocode_handler Sample.world
          [("query", Str "Seoul"); ("limit", Num 1)]) = []).
Proof.
  exact (X26_upstream_calls Sample.config
           (capability Tool "geocode" Server.geocode_schema Server.geocode_handler)
           Sample.world [("query", Str "Seoul"); ("limit", Num 1)]
           ltac:(simpl; tauto)).
Defined.

(** X27: a calculator request whose operator is a string outside the
    enumeration is refused by validation with an invalid-choice error on
    "operator"; the handler is not invoked. *)
Theorem X27_calculator_rejects_other_operators config w raw a b operator :
  prop "a" raw = Num a -> PrimFloat.is_nan a = false ->
  prop "b" raw = Num b -> PrimFloat.is_nan b = false ->
  prop "operator" raw = Str operator ->
  ~ In operator Server.calculator_operators ->
  serve config w Tool "calculator" raw =
  ([], ErrorResponse
         (translate
            (ValidationFailed
               (InvalidEnumValue "operator" ["+"; "-"; "*"; "/"] operator)))).
Proof.
  intros Ea Na Eb Nb Eo N.
  assert (I : includes Server.calculator_operators operator = false).
  { unfold includes. apply not_true_is_false. intros H.
    apply existsb_exists in H. destruct H as (x & Ix & E).
    apply String.eqb_eq in E. subst x. exact (N Ix). }
  assert (V : validate Server.calculator_schema raw =
              inl (InvalidEnumValue "operator" ["+"; "-"; "*"; "/"] operator)).
  { unfold Server.calculator_schema. simpl. unfold check_field. simpl.
    rewrite Ea. simpl. rewrite Na. simpl. rewrite Eb. simpl. rewrite Nb. simpl.
    rewrite Eo. simpl. rewrite I. reflexivity. }
  unfold serve.
  exact (dispatch_invalid (registry config) w Tool "calculator" raw
           (capability Tool "calculator" Server.calculator_schema
              Server.calculator_handler) _ eq_refl V).
Qed.

Lemma X27_calculator_rejects_other_operators_witness :
  serve Sample.config Sample.world Tool "calculator"
    [("a", Num 7); ("b", Num 2); ("operator", Str "%")] =
  ([], ErrorResponse
         {| cause := ValidationFailed
                       (InvalidEnumValue "operator" ["+"; "-"; "*"; "/"] "%");
            message := "invalid arguments: operator: invalid choice" |}).
Proof.
  exact (X27_calculator_rejects_other_operators Sample.config Sample.world
           [("a", Num 7); ("b", Num 2); ("operator", Str "%")]
           7%float 2%float "%" eq_refl eq_refl eq_refl eq_refl eq_refl
           ltac:(simpl; intuition discriminate)).
Defined.

End Quiet.

(** ** The image data *)

Section Base64.

Import JS JSString Zod MCP Effects Core Parts.

#[local] Arguments Nat.div : simpl never.
#[local] Arguments Nat.modulo : simpl never.
#[local] Arguments Nat.mul : simpl never.
#[local] Arguments Nat.add : simpl never.
#[local] Arguments sextet_of : simpl never.

Lemma sextet_char k :
  (k < 64)%nat ->
  exists c, Buffer.sextet k = String c "" /\ sextet_of c = Some k /\
            Ascii.eqb c "=" = false.
Proof.
  assert (T : forallb sextet_read_back (seq 0 64) = true)
    by (vm_compute; reflexivity).
  intros B.
  pose proof (proj1 (forallb_forall _ _) T k
                (proj2 (in_seq 64 0 k) (conj (Nat.le_0_l k) B))) as R.
  unfold sextet_read_back in R.
  destruct (Buffer.sextet k) as [| c [| c' s]]; try discriminate.
  destruct (sextet_of c) as [k' |] eqn:S; try discriminate.
  apply andb_prop in R. destruct R as [E N].
  apply Nat.eqb_eq in E. subst k'. apply negb_true_iff in N.
  exists c. auto.
Qed.

Lemma byte_bound a : (nat_of_ascii a < 256)%nat.
Proof. apply nat_ascii_bounded. Qed.

Lemma from_base64_step a b c rest :
  from_base64 (Buffer.toString_base64 rest) = Some rest ->
  from_base64 (Buffer.toString_base64 (a :: b :: c :: rest)) =
  Some (a :: b :: c :: rest).
Proof.
  intros IH.
  pose proof (byte_bound a) as Ba. pose proof (byte_bound b) as Bb.
  pose proof (byte_bound c) as Bc.
  set (n := nat_of_ascii a) in *. set (m := nat_of_ascii b) in *.
  set (p := nat_of_ascii c) in *.
  change (Buffer.toString_base64 (a :: b :: c :: rest))
    with (Buffer.sextet (n / 4) ++ Buffer.sextet ((n mod 4) * 16 + m / 16) ++
          Buffer.sextet ((m mod 16) * 4 + p / 64) ++ Buffer.sextet (p mod 64) ++
          Buffer.toString_base64 rest).
  destruct (sextet_char (n / 4)) as (c1 & -> & S1 & _);
    [apply Nat.Div0.div_lt_upper_bound; lia |].
  destruct (sextet_char ((n mod 4) * 16 + m / 16)) as (c2 & -> & S2 & _).
  { pose proof (Nat.mod_upper_bound n 4 ltac:(lia)). 
    assert (m / 16 < 16)%nat by (apply Nat.Div0.div_lt_upper_bound; lia). lia. }
  destruct (sextet_char ((m mod 16) * 4 + p / 64)) as (c3 & -> & S3 & N3).
  { pose proof (Nat.mod_upper_bound m 16 ltac:(lia)).
    assert (p / 64 < 4)%nat by (apply Nat.Div0.div_lt_upper_bound; lia). lia. }
  destruct (sextet_char (p mod 64)) as (c4 & -> & S4 & N4);
    [apply Nat.mod_upper_bound; lia |].
  simpl append. 
  change (from_base64 (String c1 (String c2 (String c3 (String c4
            (Buffer.toString_base64 rest))))))
    with (match sextet_of c1, sextet_of c2 with
          | Some x, Some y =>
              let first := ascii_of_nat (x * 4 + y / 16) in
              if Ascii.eqb c3 "=" then
                if Ascii.eqb c4 "=" then
                  match Buffer.toString_base64 rest with
                  | EmptyString => Some [first]
                  | _ => None
                  end
                else None
              else
                match sextet_of c3 with
                | Some z =>
                    let second := ascii_of_nat ((y mod 16) * 16 + z / 4) in
                    if Ascii.eqb c4 "=" then
                      match Buffer.toString_base64 rest with
                      | EmptyString => Some [first; second]
                      | _ => None
                      end
                    else
                      match sextet_of c4 with
                      | Some u =>
                          match from_base64 (Buffer.toString_base64 rest) with
                          | Some l =>
                              Some (first :: second ::
                                    ascii_of_nat ((z mod 4) * 64 + u) :: l)
                          | None => None
                          end
                      | None => None
                      end
                | None => None
                end
          | _, _ => None
          end).
  rewrite S1, S2, S3, S4, N3, N4, IH. cbv zeta.
  assert (E1 : (n / 4 * 4 + ((n mod 4) * 16 + m / 16) / 16 = n)%nat).
  { pose proof (Nat.div_mod_eq n 4). pose proof (Nat.mod_upper_bound n 4 ltac:(lia)).
    assert (m / 16 < 16)%nat by (apply Nat.Div0.div_lt_upper_bound; lia).
    replace (((n mod 4) * 16 + m / 16) / 16)%nat with (n mod 4)%nat; [lia |].
    apply Nat.div_unique with (r := (m / 16)%nat); lia. }
  assert (E2 : ((((n mod 4) * 16 + m / 16) mod 16) * 16 +
                ((m mod 16) * 4 + p / 64) / 4 = m)%nat).
  { pose proof (Nat.div_mod_eq m 16). pose proof (Nat.mod_upper_bound m 16 ltac:(lia)).
    assert (m / 16 < 16)%nat by (apply Nat.Div0.div_lt_upper_bound; lia).
    assert (p / 64 < 4)%nat by (apply Nat.Div0.div_lt_upper_bound; lia).
    replace (((n mod 4) * 16 + m / 16) mod 16)%nat with (m / 16)%nat.
    - replace (((m mod 16) * 4 + p / 64) / 4)%nat with (m mod 16)%nat; [lia |].
      apply Nat.div_unique with (r := (p / 64)%nat); lia.
    - apply Nat.mod_unique with (q := (n mod 4)%nat); lia. }
  assert (E3 : ((((m mod 16) * 4 + p / 64) mod 4) * 64 + p mod 64 = p)%nat).
  { pose proof (Nat.div_mod_eq p 64).
    assert (p / 64 < 4)%nat by (apply Nat.Div0.div_lt_upper_bound; lia).
    replace (((m mod 16) * 4 + p / 64) mod 4)%nat with (p / 64)%nat; [lia |].
    apply Nat.mod_unique with (q := (m mod 16)%nat); lia. }
  rewrite E1, E2, E3. unfold n, m, p. rewrite !ascii_nat_embedding.
  reflexivity.
Qed.

Lemma from_base64_one a :
  from_base64 (Buffer.toString_base64 [a]) = Some [a].
Proof.
  pose proof (byte_bound a) as Ba. set (n := nat_of_ascii a) in *.
  change (Buffer.toString_base64 [a])
    with (Buffer.sextet (n / 4) ++ Buffer.sextet ((n mod 4) * 16) ++ "==").
  destruct (sextet_char (n / 4)) as (c1 & -> & S1 & _);
    [apply Nat.Div0.div_lt_upper_bound; lia |].
  destruct (sextet_char ((n mod 4) * 16)) as (c2 & -> & S2 & _).
  { pose proof (Nat.mod_upper_bound n 4 ltac:(lia)). lia. }
  simpl. rewrite S1, S2.
  replace (n / 4 * 4 + (n mod 4) * 16 / 16)%nat with n.
  - unfold n. rewrite ascii_nat_embedding. reflexivity.
  - rewrite Nat.div_mul by lia. pose proof (Nat.div_mod_eq n 4). lia.
Qed.

Lemma from_base64_two a b :
  from_base64 (Buffer.toString_base64 [a; b]) = Some [a; b].
Proof.
  pose proof (byte_bound a) as Ba. pose proof (byte_bound b) as Bb.
  set (n := nat_of_ascii a) in *. set (m := nat_of_ascii b) in *.
  change (Buffer.toString_base64 [a; b])
    with (Buffer.sextet (n / 4) ++ Buffer.sextet ((n mod 4) * 16 + m / 16) ++
          Buffer.sextet ((m mod 16) * 4) ++ "=").
  assert (m / 16 < 16)%nat by (apply Nat.Div0.div_lt_upper_bound; lia).
  pose proof (Nat.mod_upper_bound n 4 ltac:(lia)).
  pose proof (Nat.mod_upper_bound m 16 ltac:(lia)).
  destruct (sextet_char (n / 4)) as (c1 & -> & S1 & _);
    [apply Nat.Div0.div_lt_upper_bound; lia |].
  destruct (sextet_char ((n mod 4) * 16 + m / 16)) as (c2 & -> & S2 & _);
    [lia |].
  destruct (sextet_char ((m mod 16) * 4)) as (c3 & -> & S3 & N3); [lia |].
  simpl. rewrite S1, S2, N3, S3.
  replace (n / 4 * 4 + ((n mod 4) * 16 + m / 16) / 16)%nat with n.
  - replace ((((n mod 4) * 16 + m / 16) mod 16) * 16 + (m mod 16) * 4 / 4)%nat
      with m.
    + unfold n, m. rewrite !ascii_nat_embedding. reflexivity.
    + rewrite Nat.div_mul by lia.
      replace (((n mod 4) * 16 + m / 16) mod 16)%nat with (m / 16)%nat.
      * pose proof (Nat.div_mod_eq m 16). lia.
      * apply Nat.mod_unique with (q := (n mod 4)%nat); lia.
  - replace (((n mod 4) * 16 + m / 16) / 16)%nat with (n mod 4)%nat.
    + pose proof (Nat.div_mod_eq n 4). lia.
    + apply Nat.div_unique with (r := (m / 16)%nat); lia.
Qed.

(** The bytes are read back from their base64 text. *)
Lemma from_base64_toString bytes :
  from_base64 (Buffer.toString_base64 bytes) = Some bytes.
Proof.
  assert (H : forall n l, (List.length l <= n)%nat ->
                from_base64 (Buffer.toString_base64 l) = Some l).
  { induction n as [| n IH]; intros l B.
    - destruct l; [reflexivity | simpl in B; lia].
    - destruct l as [| a [| b [| c rest]]].
      + reflexivity.
      + apply from_base64_one.
      + apply from_base64_two.
      + apply from_base64_step. apply IH. simpl in B. lia. }
  exact (H (List.length bytes) bytes (Nat.le_refl _)).
Qed.

(** X28: the data of the image block that the image tool returns is
    the base64 text of the bytes the inference service sent: decoding it
    gives these bytes back. *)
Theorem X28_generate_image_data_decodes config w prompt token bytes :
  Server.hfToken config = Some token -> token <> "" ->
  textToImage w token (image_request prompt) = inr bytes ->
  exists data,
    snd (Server.generate_image config w prompt) =
      inr (CallToolResult [ImageContent data "image/png"]
             (Some {| audience := ["user"]; priority := 0.9 |})) /\
    from_base64 data = Some bytes.
Proof.
  intros E N T. exists (Buffer.toString_base64 bytes). split.
  - rewrite (proj2 (generate_image_run config w prompt token E N)), T.
    reflexivity.
  - apply from_base64_toString.
Qed.

Lemma X28_generate_image_data_decodes_witness :
  exists data,
    snd (Server.generate_image Sample.config Sample.world "a cat") =
      inr (CallToolResult [ImageContent data "image/png"]
             (Some {| audience := ["user"]; priority := 0.9 |})) /\
    from_base64 data = Some (list_ascii_of_string "PNG").
Proof.
  exact (X28_generate_image_data_decodes Sample.config Sample.world "a cat"
           "hf_token" (list_ascii_of_string "PNG") eq_refl
           ltac:(discriminate) eq_refl).
Defined.

End Base64.
